(** * ANUS model layer: the Gemini adapter and the model router

    A shallow embedding of [anus/models/gemini_model.py] and
    [anus/models/model_router.py].

    Python objects are modelled by records, dictionaries by [gmap], and the
    effects of the code (exceptions, logging, calls into the provider SDK,
    allocation of instances, mutation of the router) by a state-and-exception
    monad in which the state reached before an exception is kept, as in
    Python. *)

From Stdlib Require Import ZArith QArith_base Ascii String.
From stdpp Require Import gmap strings list fin_maps.

Local Open Scope string_scope.

(** ** Python values, exceptions and outcomes *)

Module Py.

(** The values a configuration dictionary ([Dict[str, Any]]) holds.  Floats
    are carried as rationals; no operation of the two modules computes on
    them. *)
Inductive value : Type :=
| VNone
| VBool (b : bool)
| VInt (z : Z)
| VFloat (q : Q)
| VStr (s : string).

(** [type(v).__name__] *)
Definition type_name (v : value) : string :=
  match v with
  | VNone => "NoneType"
  | VBool _ => "bool"
  | VInt _ => "int"
  | VFloat _ => "float"
  | VStr _ => "str"
  end.

(** An exception instance: its class and [str(e)].  Only subclasses of
    [Exception] are modelled, which is what every [except Exception] of the
    two modules catches. *)
Record exn : Type := Exn { exn_type : string; exn_msg : string }.

Definition AttributeError (msg : string) : exn := Exn "AttributeError" msg.
Definition KeyError (msg : string) : exn := Exn "KeyError" msg.
Definition ValueError (msg : string) : exn := Exn "ValueError" msg.
Definition IndexError (msg : string) : exn := Exn "IndexError" msg.
Definition TypeError (msg : string) : exn := Exn "TypeError" msg.

Inductive outcome (A : Type) : Type :=
| Return (a : A)
| Raise (e : exn).
Arguments Return {A} a.
Arguments Raise {A} e.

Definition raises {A} (o : outcome A) : bool :=
  match o with Return _ => false | Raise _ => true end.

(** Lower-casing of ASCII text: the letters A to Z are mapped to a to z and
    every other byte is left as it is. *)
Definition ascii_lower (c : ascii) : ascii :=
  let n := N_of_ascii c in
  if ((65 <=? n) && (n <=? 90))%N then ascii_of_N (n + 32) else c.

Fixpoint lower (s : string) : string :=
  match s with
  | EmptyString => EmptyString
  | String c r => String (ascii_lower c) (lower r)
  end.

(** A string that holds ASCII characters only. *)
Fixpoint is_ascii (s : string) : bool :=
  match s with
  | EmptyString => true
  | String c r => (N_of_ascii c <? 128)%N && is_ascii r
  end.

(** [str.lower].  Python lower-cases by the Unicode tables, which are not
    part of the sources: the method is a parameter, known on ASCII text,
    where it is [lower]. *)
Class Str : Type := {
  str_lower : string -> string;
  str_lower_ascii : forall s, is_ascii s = true -> str_lower s = lower s;
}.

(** A key is case-normalised when [str.lower] leaves it unchanged. *)
Definition case_normalized `{Str} (s : string) : Prop := str_lower s = s.

(** [logging.info / warning / error] append a record to the log. *)
Inductive level : Type := INFO | WARNING | ERROR.
Record log_record : Type := LogRecord { lvl : level; msg : string }.

(** *** The monad

    [M S A] is a computation over a state [S] that returns an [A] or raises.
    The state is threaded through a raise: what the code did before the
    exception stays done. *)
Definition M (S A : Type) : Type := S -> outcome A * S.

Definition ret {S A} (a : A) : M S A := fun s => (Return a, s).
Definition raise {S A} (e : exn) : M S A := fun s => (Raise e, s).
Definition bind {S A B} (c : M S A) (k : A -> M S B) : M S B :=
  fun s => match c s with
           | (Return a, s') => k a s'
           | (Raise e, s') => (Raise e, s')
           end.
(** [try: body  except Exception as e: handler e] *)
Definition try_except {S A} (body : M S A) (handler : exn -> M S A) : M S A :=
  fun s => match body s with
           | (Return a, s') => (Return a, s')
           | (Raise e, s') => handler e s'
           end.
Definition get {S} : M S S := fun s => (Return s, s).
Definition modify {S} (f : S -> S) : M S unit := fun s => (Return tt, f s).
(** Run a computation on a component of the state. *)
Definition zoom {S T A} (proj : S -> T) (upd : T -> S -> S) (c : M T A) : M S A :=
  fun s => let '(r, t) := c (proj s) in (r, upd t s).

End Py.
Export Py.

Declare Scope py_scope.
Delimit Scope py_scope with py.
Notation "x <- c ;; k" := (bind c (fun x => k))
  (at level 100, c at next level, right associativity) : py_scope.
Notation "c ;;; k" := (bind c (fun _ => k))
  (at level 100, right associativity) : py_scope.
Local Open Scope py_scope.

(** ** The provider SDK ([google.genai]) and the process environment

    The SDK is outside the repository.  Its entry points are the fields of
    the class below: each call acts on an abstract [World] (the network, the
    remote service, the SDK's own objects) and returns or raises. *)

Class GenAI : Type := {
  World : Type;
  Client : Type;            (* genai.Client *)
  GenConfig : Type;         (* types.GenerateContentConfig *)
  Response : Type;          (* a response or a streamed chunk *)
  Stream : Type;            (* the iterator generate_content_stream returns *)
  Session : Type;           (* what client.chats.create returns *)
  Contents : Type;          (* a prompt: text, or a list of parts *)
  Part : Type;
  (* genai.Client(api_key=...) *)
  genai_Client : value -> World -> outcome Client * World;
  (* types.GenerateContentConfig(temperature=...) *)
  GenerateContentConfig : value -> World -> outcome GenConfig * World;
  (* client.models.generate_content(model=, contents=, config=) *)
  generate_content :
    Client -> value -> Contents -> GenConfig -> World -> outcome Response * World;
  (* client.models.generate_content_stream(model=, contents=, config=) *)
  generate_content_stream :
    Client -> value -> Contents -> GenConfig -> World -> outcome Stream * World;
  (* next(stream): a chunk, StopIteration ([Return None]) or an error *)
  stream_next : Stream -> World -> outcome (option Response) * World;
  (* response.text, chunk.text *)
  response_text : Response -> outcome value;
  (* client.chats.create(model=...) *)
  chats_create : Client -> value -> World -> outcome Session * World;
  (* chat_session.send_message(message) *)
  session_send_message : Session -> string -> World -> outcome Response * World;
  (* chat_session.get_history(): the messages, each with its role and parts *)
  session_get_history :
    Session -> World -> outcome (list (value * list Part)) * World;
  (* part.text, a plain field of the part *)
  part_text : Part -> value;
}.

(** The environment the code runs in: the world and the log. *)
Record env `{GenAI} : Type := Env { world : World; logs : list log_record }.
Arguments Env {_} _ _.

Section Environment.
Context `{GenAI}.

(** A call into the SDK. *)
Definition sdk {A} (f : World -> outcome A * World) : M env A :=
  zoom world (fun w e => Env w (logs e)) f.

(** An attribute access that may raise. *)
Definition attr {S A} (o : outcome A) : M S A := fun s => (o, s).

Definition logging (l : level) (m : string) : M env unit :=
  modify (fun e => Env (world e) (logs e ++ [LogRecord l m])).
End Environment.

(** ** gemini_model.py *)

Module Gemini.
Section Adapter.
Context `{GenAI}.

(** An instance of [GeminiModel]: the attributes [__init__] sets. *)
Record GeminiModel : Type := {
  model_name : value;
  api_key : value;
  temperature : value;
  client : Client;
}.

(** A keyword argument with a default. *)
Definition kwarg (kwargs : gmap string value) (k : string) (dflt : value) : value :=
  default dflt (kwargs !! k).

(** The body of [__init__], once the arguments are bound: a client that
    cannot be created is logged and re-raised. *)
Definition GeminiModel_body (model_name api_key temperature : value) : M env GeminiModel :=
  try_except
    (c <- sdk (genai_Client api_key);;
     ret {| model_name := model_name; api_key := api_key;
            temperature := temperature; client := c |})
    (fun e =>
       logging ERROR ("Failed to initialize Gemini client: " ++ exn_msg e);;;
       raise e).

(** [GeminiModel( **kwargs )] with the signature [__init__(self,
    model_name="gemini-2.0-flash", api_key="", temperature=0.0, **kwargs)].
    The keywords are bound first: a keyword "self" clashes with the first
    parameter and raises [TypeError] before the body runs; the three named
    parameters take their keyword or their default; every other keyword is
    collected and ignored. *)
Definition GeminiModel_init (kwargs : gmap string value) : M env GeminiModel :=
  if bool_decide (is_Some (kwargs !! "self"))
  then raise (TypeError "GeminiModel.__init__() got multiple values for argument 'self'")
  else
    GeminiModel_body
      (kwarg kwargs "model_name" (VStr "gemini-2.0-flash"))
      (kwarg kwargs "api_key" (VStr ""))
      (kwarg kwargs "temperature" (VFloat 0)).

Definition generate_text (self : GeminiModel) (contents : Contents) : M env value :=
  try_except
    (cfg <- sdk (GenerateContentConfig (temperature self));;
     response <- sdk (generate_content (client self) (model_name self) contents cfg);;
     attr (response_text response))
    (fun e =>
       logging ERROR ("Error generating content with Gemini: " ++ exn_msg e);;;
       ret (VStr "")).

(** [generate_text_stream] contains a [yield], so calling it runs nothing: it
    returns a generator object.  The generator is created, then suspended at
    the [yield] inside the loop over the SDK's stream, then closed. *)
Inductive generator : Type :=
| GenCreated (self : GeminiModel) (contents : Contents)
| GenSuspended (response : Stream)
| GenClosed.

Definition generate_text_stream (self : GeminiModel) (contents : Contents) : generator :=
  GenCreated self contents.

(** The [except] clause of the generator body: log, then [return iter([])],
    which in a generator ends the iteration. *)
Definition stream_handler (e : exn) : M env (option value * generator) :=
  logging ERROR ("Error in streaming generation with Gemini: " ++ exn_msg e);;;
  ret (None, GenClosed).

(** One turn of [for chunk in response: yield chunk.text]: up to the next
    [yield], or to the end of the loop, after which the body falls off its
    end. *)
Definition stream_loop (response : Stream) : M env (option value * generator) :=
  nx <- sdk (stream_next response);;
  match nx with
  | Some chunk => t <- attr (response_text chunk);; ret (Some t, GenSuspended response)
  | None => ret (None, GenClosed)
  end.

(** [next(g)]: [Some t] is a yielded fragment, [None] is [StopIteration]; a
    [Raise] would be an exception reaching the consumer. *)
Definition generator_next (g : generator) : M env (option value * generator) :=
  match g with
  | GenCreated self contents =>
      try_except
        (cfg <- sdk (GenerateContentConfig (temperature self));;
         response <- sdk (generate_content_stream
                            (client self) (model_name self) contents cfg);;
         stream_loop response)
        stream_handler
  | GenSuspended response => try_except (stream_loop response) stream_handler
  | GenClosed => ret (None, GenClosed)
  end.

(** A consumer that takes at most [fuel] fragments ([itertools.islice], or
    [list(g)] when the fuel suffices).  The last component tells whether the
    generator signalled its end. *)
Fixpoint consume (fuel : nat) (g : generator) (e : env)
  : outcome (list value) * generator * env * bool :=
  match fuel with
  | O => (Return [], g, e, false)
  | S n =>
      match generator_next g e with
      | (Return (Some t, g'), e') =>
          match consume n g' e' with
          | (Return ts, g'', e'', fin) => (Return (t :: ts), g'', e'', fin)
          | r => r
          end
      | (Return (None, g'), e') => (Return [], g', e', true)
      | (Raise x, e') => (Raise x, GenClosed, e', true)
      end
  end.

(** What the SDK's stream does when it is iterated from a world on: the
    chunks it delivers and how it ends. *)
Inductive ending : Type := Exhausted | Failed (e : exn).

Inductive stream_run (response : Stream) : World -> list Response -> ending -> World -> Prop :=
| run_exhausted w w' :
    stream_next response w = (Return None, w') ->
    stream_run response w [] Exhausted w'
| run_failed w w' e :
    stream_next response w = (Raise e, w') ->
    stream_run response w [] (Failed e) w'
| run_chunk w w1 c cs fin w' :
    stream_next response w = (Return (Some c), w1) ->
    stream_run response w1 cs fin w' ->
    stream_run response w (c :: cs) fin w'.

(** The fragments of a run of chunks, up to the first chunk whose [text]
    raises. *)
Fixpoint fragments (cs : list Response) : list value :=
  match cs with
  | [] => []
  | c :: r =>
      match response_text c with
      | Return t => t :: fragments r
      | Raise _ => []
      end
  end.

(** [GeminiChat]: a wrapper around the SDK's chat session. *)
Record GeminiChat : Type := { chat_session : Session }.

Definition create_chat (self : GeminiModel) : M env GeminiChat :=
  try_except
    (s <- sdk (chats_create (client self) (model_name self));;
     ret {| chat_session := s |})
    (fun e =>
       logging ERROR ("Error creating chat session with Gemini: " ++ exn_msg e);;;
       raise e).

(** [get_model_details]: the dictionary with keys provider, model_name and
    temperature. *)
Definition get_model_details (self : GeminiModel) : gmap string value :=
  {[ "provider" := VStr "gemini";
     "model_name" := model_name self;
     "temperature" := temperature self ]}.

Definition send_message (self : GeminiChat) (message : string) : M env value :=
  try_except
    (response <- sdk (session_send_message (chat_session self) message);;
     attr (response_text response))
    (fun e =>
       logging ERROR ("Error sending message in Gemini chat: " ++ exn_msg e);;;
       ret (VStr "")).

(** One entry of the history: the dictionary with keys role and text. *)
Record turn : Type := Turn { role : value; text : value }.

(** [message.parts[0].text] *)
Definition first_part_text {S} (parts : list Part) : M S value :=
  match parts with
  | p :: _ => ret (part_text p)
  | [] => raise (IndexError "list index out of range")
  end.

(** The list comprehension over the history. *)
Fixpoint comprehension {S} (history : list (value * list Part)) : M S (list turn) :=
  match history with
  | [] => ret []
  | (r, parts) :: rest =>
      t <- first_part_text parts;;
      ts <- comprehension rest;;
      ret (Turn r t :: ts)
  end.

Definition get_history (self : GeminiChat) : M env (list turn) :=
  try_except
    (history <- sdk (session_get_history (chat_session self));;
     comprehension history)
    (fun e =>
       logging ERROR ("Error retrieving Gemini chat history: " ++ exn_msg e);;;
       ret []).

(** The environment after one more log record. *)
Definition logged (e : env) (l : level) (m : string) : env :=
  Env (world e) (logs e ++ [LogRecord l m]).

(** The exception that ends the generator's loop over a run of chunks, if
    any: the first chunk whose [text] raises, or else the failure of the
    stream itself. *)
Fixpoint stream_failure (cs : list Response) (fin : ending) : option exn :=
  match cs with
  | [] => match fin with Exhausted => None | Failed x => Some x end
  | c :: r =>
      match response_text c with
      | Return _ => stream_failure r fin
      | Raise x => Some x
      end
  end.

(** The log records of the generator for such a run. *)
Definition stream_log (cs : list Response) (fin : ending) : list log_record :=
  match stream_failure cs fin with
  | Some x => [LogRecord ERROR ("Error in streaming generation with Gemini: " ++ exn_msg x)]
  | None => []
  end.

End Adapter.
End Gemini.

(** ** model_router.py *)

Module Router.
Section Objects.
Context `{GenAI}.

(** What a model instance holds: the attributes of a [GeminiModel], or, for
    any other class, its attribute dictionary. *)
Inductive payload : Type :=
| GeminiState (g : Gemini.GeminiModel)
| Attributes (d : gmap string value).

(** A model class ([Type[BaseModel]]): its [__name__] and what calling it
    with keyword arguments does. *)
Record pyclass : Type := {
  cls_name : string;
  cls_init : gmap string value -> M env payload;
}.

(** A live instance.  [obj_id] is its identity ([id(m)]): two references are
    the same object exactly when the ids agree. *)
Record BaseModel : Type := {
  obj_id : nat;
  obj_type : string;
  obj_state : payload;
}.

Definition GeminiModel : pyclass :=
  {| cls_name := "GeminiModel";
     cls_init := fun kwargs => g <- Gemini.GeminiModel_init kwargs;; ret (GeminiState g) |}.

End Objects.

(** [anus/models/openai_model.py] is not among the sources: the class
    [OpenAIModel] is a parameter of the development. *)
Class OpenAI `{GenAI} : Type := { OpenAIModel : pyclass }.

Section Router.
Context `{GenAI} {openai : OpenAI} {text : Str}.

(** The attributes of the router. *)
Record ModelRouter : Type := {
  models : gmap string BaseModel;
  model_classes : gmap string pyclass;
  default_model_config : gmap string value;
  default_model : option BaseModel;
}.

(** The state a method of the router runs in: the router itself, the
    environment, the next free object identity, and, as a ghost record for
    the proofs, every call of a model class made so far with its keyword
    arguments. *)
Record state : Type := {
  self : ModelRouter;
  proc : env;
  next_id : nat;
  constructions : list (string * gmap string value);
}.

Definition set_self (r : ModelRouter) (s : state) : state :=
  {| self := r; proc := proc s; next_id := next_id s; constructions := constructions s |}.
Definition set_proc (e : env) (s : state) : state :=
  {| self := self s; proc := e; next_id := next_id s; constructions := constructions s |}.
Definition allocate (s : state) : state :=
  {| self := self s; proc := proc s; next_id := S (next_id s);
     constructions := constructions s |}.
Definition record_call (k : pyclass) (kwargs : gmap string value) (s : state) : state :=
  {| self := self s; proc := proc s; next_id := next_id s;
     constructions := constructions s ++ [(cls_name k, kwargs)] |}.

Definition log (l : level) (m : string) : M state unit :=
  zoom proc set_proc (logging l m).

(** The state after a class was called with [kwargs], left the environment
    [e] and the next free identity [n]. *)
Definition after_call (k : pyclass) (kwargs : gmap string value) (e : env) (n : nat)
  (s : state) : state :=
  {| self := self s; proc := e; next_id := n;
     constructions := constructions s ++ [(cls_name k, kwargs)] |}.

(** The call [model_class( **kwargs )]: run the constructor; when it returns, the new
    object gets a fresh identity. *)
Definition call_class (k : pyclass) (kwargs : gmap string value) : M state BaseModel :=
  modify (record_call k kwargs);;;
  p <- zoom proc set_proc (cls_init k kwargs);;
  s <- get;;
  modify allocate;;;
  ret {| obj_id := next_id s; obj_type := cls_name k; obj_state := p |}.

(** [bool(d)] for a dictionary. *)
Definition truthy (d : gmap string value) : bool := negb (size d =? 0)%nat.

Definition default_config : gmap string value :=
  {[ "provider" := VStr "openai";
     "model_name" := VStr "gpt-4";
     "temperature" := VFloat 0 ]}.

(** [ModelRouter.__init__(default_model_config=None)] *)
Definition ModelRouter_init (default_model_config : option (gmap string value)) : ModelRouter :=
  {| models := ∅;
     model_classes := {[ "openai" := OpenAIModel; "gemini" := GeminiModel ]};
     default_model_config :=
       match default_model_config with
       | Some c => if truthy c then c else default_config
       | None => default_config
       end;
     default_model := None |}.

Definition register_model (name : string) (model : BaseModel) : M state unit :=
  modify (fun s =>
    set_self {| models := <[name := model]> (models (self s));
                model_classes := model_classes (self s);
                default_model_config := default_model_config (self s);
                default_model := default_model (self s) |} s);;;
  log INFO ("Registered model: " ++ name).

Definition register_model_class (provider : string) (model_class : pyclass) : M state unit :=
  modify (fun s =>
    set_self {| models := models (self s);
                model_classes := <[provider := model_class]> (model_classes (self s));
                default_model_config := default_model_config (self s);
                default_model := default_model (self s) |} s);;;
  log INFO ("Registered model class for provider: " ++ provider).

(** [config.get("provider", "openai").lower()]: a value that is not a string
    has no [lower]. *)
Definition provider_of (config : gmap string value) : M state string :=
  match default (VStr "openai") (config !! "provider") with
  | VStr p => ret (str_lower p)
  | v => raise (AttributeError
                  ("'" ++ type_name v ++ "' object has no attribute 'lower'"))
  end.

(** The provider the constructor is looked up under: the lower-cased one, or
    "openai" when the registry does not know it; then the check of the
    Gemini key, which only logs. *)
Definition resolve_provider (config : gmap string value) : M state string :=
  provider <- provider_of config;;
  s <- get;;
  provider <-
    (if bool_decide (is_Some (model_classes (self s) !! provider)) then ret provider
     else
       log ERROR ("Unknown model provider: " ++ provider ++ ". Using OpenAI as fallback.");;;
       ret "openai");;
  (if bool_decide (provider = "gemini") && negb (bool_decide (is_Some (config !! "api_key")))
   then log ERROR "API key must be provided for gemini provider."
   else ret tt);;;
  ret provider.

(** The body of the outer [try]. *)
Definition construct (provider : string) (config : gmap string value) : M state BaseModel :=
  s <- get;;
  match model_classes (self s) !! provider with
  | Some model_class => call_class model_class (delete "provider" config)
  | None => raise (KeyError ("'" ++ provider ++ "'"))
  end.

Definition gpt4_kwargs : gmap string value := {[ "model_name" := VStr "gpt-4" ]}.

Definition fallback_message (provider : string) (e : exn) : string :=
  "Error creating model for provider " ++ provider ++ ": " ++ exn_msg e.

(** The outer [except] clause. *)
Definition fallback (provider : string) (e : exn) : M state BaseModel :=
  log ERROR (fallback_message provider e);;;
  try_except
    (call_class OpenAIModel gpt4_kwargs)
    (fun _ => raise (ValueError ("Failed to create model: " ++ exn_msg e))).

Definition _create_model_from_config (config : gmap string value) : M state BaseModel :=
  provider <- resolve_provider config;;
  try_except (construct provider config) (fallback provider).

Definition set_default_model (m : BaseModel) (s : state) : state :=
  set_self {| models := models (self s);
              model_classes := model_classes (self s);
              default_model_config := default_model_config (self s);
              default_model := Some m |} s.

Definition get_default_model : M state BaseModel :=
  s <- get;;
  match default_model (self s) with
  | Some m => ret m
  | None =>
      m <- _create_model_from_config (default_model_config (self s));;
      modify (set_default_model m);;;
      ret m
  end.

(** The argument of [get_model]: a string, a dictionary, or anything else
    (of which the code only uses the rendering in the log message). *)
Inductive name_or_config : Type :=
| ByName (name : string)
| ByConfig (config : gmap string value)
| ByOther (rendering : string).

Definition get_model (arg : name_or_config) : M state BaseModel :=
  match arg with
  | ByName name =>
      s <- get;;
      match models (self s) !! name with
      | Some m => ret m
      | None =>
          log WARNING ("Model '" ++ name ++ "' not found. Using default model.");;;
          get_default_model
      end
  | ByConfig config => _create_model_from_config config
  | ByOther rendering =>
      log ERROR ("Invalid model specification: " ++ rendering);;;
      get_default_model
  end.

(** [select_model_for_task(task, requirements=None)] *)
Definition select_model_for_task
  (task : string) (requirements : option (gmap string value)) : M state BaseModel :=
  match requirements with
  | Some r => if truthy r then _create_model_from_config r else get_default_model
  | None => get_default_model
  end.

(** *** Histories of calls

    What a client can do with a router, as data, to speak of the states a
    router reaches. *)
Inductive call : Type :=
| RegisterModel (name : string) (model : BaseModel)
| RegisterModelClass (provider : string) (model_class : pyclass)
| GetModel (arg : name_or_config)
| GetDefaultModel
| SelectModelForTask (task : string) (requirements : option (gmap string value))
| CreateModelFromConfig (config : gmap string value).

(** The state after a call, whether it returned or raised. *)
Definition exec (c : call) (s : state) : state :=
  match c with
  | RegisterModel name model => snd (register_model name model s)
  | RegisterModelClass provider model_class => snd (register_model_class provider model_class s)
  | GetModel arg => snd (get_model arg s)
  | GetDefaultModel => snd (get_default_model s)
  | SelectModelForTask task requirements => snd (select_model_for_task task requirements s)
  | CreateModelFromConfig config => snd (_create_model_from_config config s)
  end.

Definition run (cs : list call) (s : state) : state :=
  fold_left (fun s c => exec c s) cs s.

(** A router just built by [ModelRouter(default_model_config)], in an
    environment [e] in which [n] objects exist already. *)
Definition boot (e : env) (n : nat) (default_model_config : option (gmap string value)) : state :=
  {| self := ModelRouter_init default_model_config; proc := e; next_id := n;
     constructions := [] |}.

(** The invariant on provider keys. *)
Definition keys_normalized (r : ModelRouter) : Prop :=
  forall p k, model_classes r !! p = Some k -> case_normalized p.

(** The provider field is absent or a string. *)
Definition provider_is_text (config : gmap string value) : Prop :=
  match config !! "provider" with
  | None | Some (VStr _) => True
  | Some _ => False
  end.

Definition logged (s : state) (l : level) (m : string) : state :=
  set_proc (Gemini.logged (proc s) l m) s.

(** The cached default, when there is one, is an object that exists
    already: its identity is below the next free one. *)
Definition default_is_older (s : state) : Prop :=
  forall d, default_model (self s) = Some d -> obj_id d < next_id s.

End Router.

(** *** list_available_models

    The method reads [model.model_name] and calls
    [model.get_model_details()] on every registered instance.  For a
    [GeminiModel] both are in the sources; for an instance of any other class
    they are parameters, given the name of the class and the attributes of
    the instance. *)
Class Introspection `{GenAI} : Type := {
  attribute_model_name : string -> gmap string value -> outcome value;
  method_get_model_details : string -> gmap string value -> M env (gmap string value);
}.

Section Listing.
Context `{GenAI} {openai : OpenAI} {introspection : Introspection}.

(** [model.model_name] *)
Definition model_name_of (model : BaseModel) : outcome value :=
  match obj_state model with
  | GeminiState g => Return (Gemini.model_name g)
  | Attributes d => attribute_model_name (obj_type model) d
  end.

(** [model.get_model_details()] *)
Definition details_of (model : BaseModel) : M env (gmap string value) :=
  match obj_state model with
  | GeminiState g => ret (Gemini.get_model_details g)
  | Attributes d => method_get_model_details (obj_type model) d
  end.

(** One dictionary of the result.  The entries for bare providers have no
    ["model_name"]. *)
Record info : Type := Info {
  info_name : string;
  info_type : string;
  info_model_name : option value;
  info_details : gmap string value;
}.

(** [d.items()]: a dictionary is iterated in the order its keys were first
    inserted, which a [gmap] does not keep; the order is given beside it. *)
Definition items {V} (d : gmap string V) (order : list string) : list (string * V) :=
  omap (fun k => (fun v => (k, v)) <$> d !! k) order.

(** The first loop, over the registered instances. *)
Fixpoint describe_models (its : list (string * BaseModel)) (models_info : list info)
  : M state (list info) :=
  match its with
  | [] => ret models_info
  | (name, model) :: rest =>
      model_name <- attr (model_name_of model);;
      details <- zoom proc set_proc (details_of model);;
      describe_models rest
        (models_info ++ [Info name (obj_type model) (Some model_name) details])
  end.

(** [provider == info["details"].get("provider")] *)
Definition reports (provider : string) (i : info) : bool :=
  match info_details i !! "provider" with
  | Some (VStr p) => bool_decide (p = provider)
  | _ => false
  end.

Definition bare (provider : string) (model_class : pyclass) : info :=
  Info provider (cls_name model_class) None {[ "provider" := VStr provider ]}.

(** The second loop, over the registered classes: the test is made against
    the list as it stands, entries appended by this loop included. *)
Fixpoint describe_providers (its : list (string * pyclass)) (models_info : list info)
  : list info :=
  match its with
  | [] => models_info
  | (provider, model_class) :: rest =>
      if existsb (reports provider) models_info
      then describe_providers rest models_info
      else describe_providers rest (models_info ++ [bare provider model_class])
  end.

(** What the entry [i] for a registered instance holds: the name it was
    registered under, the name of its class, its model name, and as details
    what [get_model_details()] returned when it was called, which for a
    [GeminiModel] is fixed by the sources. *)
Definition describes (it : string * BaseModel) (i : info) : Prop :=
  info_name i = fst it
  /\ info_type i = obj_type (snd it)
  /\ Return <$> info_model_name i = Some (model_name_of (snd it))
  /\ (exists e e', details_of (snd it) e = (Return (info_details i), e'))
  /\ (forall g, obj_state (snd it) = GeminiState g ->
        info_details i = Gemini.get_model_details g).

(** [list_available_models()], for a router whose [models] and
    [model_classes] are iterated in the orders [names] and [providers]. *)
Definition list_available_models (names providers : list string) : M state (list info) :=
  s <- get;;
  models_info <- describe_models (items (models (self s)) names) [];;
  s' <- get;;
  ret (describe_providers (items (model_classes (self s')) providers) models_info).

End Listing.
End Router.

(** ** A scripted provider, for concrete runs

    An instance of the SDK interface in which the prompt itself says what the
    remote service answers: a prompt is a script of replies, a world is the
    part of the script the open stream has not delivered yet. *)

Module Scripted.

Inductive reply : Type :=
| Text (s : string)
| Fault (m : string).

Definition ServerError (m : string) : exn := Exn "ServerError" m.

Definition scripted_client (k : value) (w : list reply) : outcome string * list reply :=
  match k with
  | VStr "" => (Raise (ValueError "Missing key inputs argument!"), w)
  | VStr key => (Return key, w)
  | _ => (Raise (ValueError "Invalid API key"), w)
  end.

Definition scripted_generate (contents : list reply) (w : list reply)
  : outcome string * list reply :=
  match contents with
  | Text s :: _ => (Return s, w)
  | Fault m :: _ => (Raise (ServerError m), w)
  | [] => (Return "", w)
  end.

Definition scripted_next (w : list reply) : outcome (option string) * list reply :=
  match w with
  | [] => (Return None, [])
  | Text s :: r => (Return (Some s), r)
  | Fault m :: r => (Raise (ServerError m), r)
  end.

Definition scripted_send (message : string) (w : list reply)
  : outcome string * list reply :=
  if bool_decide (message = "") then (Raise (ServerError "empty message"), w)
  else (Return ("echo: " ++ message), w).

#[export] Instance service : GenAI := {|
  World := list reply;
  Client := string;
  GenConfig := value;
  Response := string;
  Stream := unit;
  Session := list (value * list string);
  Contents := list reply;
  Part := string;
  genai_Client := scripted_client;
  GenerateContentConfig := fun t w => (Return t, w);
  generate_content := fun _ _ contents _ w => scripted_generate contents w;
  generate_content_stream := fun _ _ contents _ _ => (Return tt, contents);
  stream_next := fun _ w => scripted_next w;
  response_text := fun r => Return (VStr r);
  chats_create := fun _ _ w => (Return [], w);
  session_send_message := fun _ message w => scripted_send message w;
  session_get_history := fun s w => (Return s, w);
  part_text := VStr;
|}.

Definition gemini : Gemini.GeminiModel :=
  {| Gemini.model_name := VStr "gemini-2.0-flash";
     Gemini.api_key := VStr "k";
     Gemini.temperature := VFloat 0;
     Gemini.client := "k" |}.

Definition quiet : env := Env [] [].

Definition chat (history : list (value * list string)) : Gemini.GeminiChat :=
  {| Gemini.chat_session := history |}.

(** A stream that delivers two chunks and then breaks. *)
Definition broken_stream : list reply :=
  [Text "Hel"; Text "lo"; Fault "reset"; Text "lost"].

End Scripted.


(** ** A provider whose stream never ends

    An instance of the SDK interface in which every [next] on a stream
    delivers one more chunk. *)

Module Endless.

#[export] Instance service : GenAI := {|
  World := unit;
  Client := unit;
  GenConfig := unit;
  Response := string;
  Stream := unit;
  Session := unit;
  Contents := string;
  Part := string;
  genai_Client := fun _ w => (Return tt, w);
  GenerateContentConfig := fun _ w => (Return tt, w);
  generate_content := fun _ _ contents _ w => (Return contents, w);
  generate_content_stream := fun _ _ _ _ w => (Return tt, w);
  stream_next := fun _ w => (Return (Some "tick"), w);
  response_text := fun r => Return (VStr r);
  chats_create := fun _ _ w => (Return tt, w);
  session_send_message := fun _ message w => (Return message, w);
  session_get_history := fun _ w => (Return [], w);
  part_text := VStr;
|}.

Definition gemini : Gemini.GeminiModel :=
  {| Gemini.model_name := VStr "gemini-2.0-flash";
     Gemini.api_key := VStr "k";
     Gemini.temperature := VFloat 0;
     Gemini.client := tt |}.

Definition quiet : env := Env tt [].

End Endless.

(** ** Fixtures on the scripted provider *)

Module Fixtures.
Import Router.
Import Scripted.

(** An [OpenAIModel] that can always be built, one that never can (no
    credentials in the process), and a class a client registers. *)
Definition OpenAI_ok : pyclass :=
  {| cls_name := "OpenAIModel"; cls_init := fun kwargs => ret (Attributes kwargs) |}.

Definition OpenAI_down : pyclass :=
  {| cls_name := "OpenAIModel";
     cls_init := fun _ => raise (Exn "OpenAIError" "The api_key client option must be set") |}.

Definition ClaudeModel : pyclass :=
  {| cls_name := "ClaudeModel"; cls_init := fun kwargs => ret (Attributes kwargs) |}.

#[export] Instance up : OpenAI := {| OpenAIModel := OpenAI_ok |}.
Definition down : OpenAI := {| OpenAIModel := OpenAI_down |}.

(** The runs below are on ASCII text, where [str.lower] is [lower]. *)
#[export] Instance ascii_text : Str :=
  {| str_lower := lower; str_lower_ascii := fun _ _ => eq_refl |}.

(** A new router with the default configuration, where [OpenAIModel] can be
    built, and one where it cannot. *)
Definition fresh : state := boot (openai := up) Scripted.quiet 0 None.
Definition orphan : state := boot (openai := down) Scripted.quiet 0 None.

(** The router after [register_model_class("Claude", ClaudeModel)]. *)
Definition with_claude : state :=
  snd (register_model_class "Claude" ClaudeModel fresh).

Definition gemini_upper : gmap string value :=
  {[ "provider" := VStr "GEMINI"; "api_key" := VStr "k" ]}.

Definition gemini_without_key : gmap string value := {[ "provider" := VStr "gemini" ]}.

Definition anthropic : gmap string value := {[ "provider" := VStr "anthropic" ]}.

(** A history: an instance registered as "chat1", then the default model
    asked for. *)
Definition history : list call :=
  [RegisterModel "chat1" {| obj_id := 7; obj_type := "OpenAIModel"; obj_state := Attributes ∅ |};
   GetDefaultModel].

(** Introspection of the instances of the classes above: the model name is
    the attribute of that name, and the details give the provider "openai"
    beside the attributes. *)
#[export] Instance plain : Introspection := {|
  attribute_model_name := fun _ d =>
    match d !! "model_name" with
    | Some v => Return v
    | None => Raise (AttributeError "object has no attribute 'model_name'")
    end;
  method_get_model_details := fun _ d => ret (<["provider" := VStr "openai"]> d);
|}.

(** The router after [register_model("chat1", m)], [m] an [OpenAIModel]. *)
Definition with_chat1 : state :=
  snd (register_model "chat1"
         {| obj_id := 7; obj_type := "OpenAIModel";
            obj_state := Attributes {[ "model_name" := VStr "gpt-4" ]} |} fresh).

(** What [list_available_models] gives on it. *)
Definition chat1_listing : list info :=
  [Info "chat1" "OpenAIModel" (Some (VStr "gpt-4"))
     {[ "provider" := VStr "openai"; "model_name" := VStr "gpt-4" ]};
   bare "gemini" GeminiModel].

Definition chat9 : BaseModel :=
  {| obj_id := 9; obj_type := "OpenAIModel"; obj_state := Attributes ∅ |}.

(** The router after the default model was asked for once. *)
Definition warmed_up : state := run (openai := up) [GetDefaultModel] fresh.

End Fixtures.

(** * Properties of the Gemini adapter *)

Module GeminiFacts.
Import Gemini.
Section Facts.
Context `{GenAI}.

(** A handler that always returns makes the whole [try] return. *)
Lemma try_except_total {S A} (body : M S A) (handler : exn -> M S A) s :
  (forall x s1, exists a s2, handler x s1 = (Return a, s2)) ->
  exists a s', try_except body handler s = (Return a, s').
Proof.
  intros Hh. unfold try_except.
  destruct (body s) as [[a|x] s1]; eauto.
Qed.

Lemma generate_text_total self contents e :
  exists v e', generate_text self contents e = (Return v, e').
Proof.
  apply try_except_total. intros x s1. eexists _, _. reflexivity.
Qed.

Lemma send_message_total self message e :
  exists v e', send_message self message e = (Return v, e').
Proof.
  apply try_except_total. intros x s1. eexists _, _. reflexivity.
Qed.

(** C6. When the remote call behind [generate_text] fails (building the
    request configuration, the call itself, or reading the text of the
    response), [generate_text] returns the empty string and logs the error;
    when the remote call behind [send_message] fails, so does [send_message].
    Neither ever raises. *)
Theorem generation_failure_returns_empty_string :
  (forall self contents e, exists v e', generate_text self contents e = (Return v, e'))
  /\ (forall self message e, exists v e', send_message self message e = (Return v, e'))
  /\ (forall self contents e x w1,
        GenerateContentConfig (temperature self) (world e) = (Raise x, w1) ->
        generate_text self contents e
        = (Return (VStr ""),
           logged (Env w1 (logs e)) ERROR
             ("Error generating content with Gemini: " ++ exn_msg x)))
  /\ (forall self contents e cfg x w1 w2,
        GenerateContentConfig (temperature self) (world e) = (Return cfg, w1) ->
        generate_content (client self) (model_name self) contents cfg w1 = (Raise x, w2) ->
        generate_text self contents e
        = (Return (VStr ""),
           logged (Env w2 (logs e)) ERROR
             ("Error generating content with Gemini: " ++ exn_msg x)))
  /\ (forall self contents e cfg response x w1 w2,
        GenerateContentConfig (temperature self) (world e) = (Return cfg, w1) ->
        generate_content (client self) (model_name self) contents cfg w1
        = (Return response, w2) ->
        response_text response = Raise x ->
        generate_text self contents e
        = (Return (VStr ""),
           logged (Env w2 (logs e)) ERROR
             ("Error generating content with Gemini: " ++ exn_msg x)))
  /\ (forall self message e x w1,
        session_send_message (chat_session self) message (world e) = (Raise x, w1) ->
        send_message self message e
        = (Return (VStr ""),
           logged (Env w1 (logs e)) ERROR
             ("Error sending message in Gemini chat: " ++ exn_msg x)))
  /\ (forall self message e response x w1,
        session_send_message (chat_session self) message (world e) = (Return response, w1) ->
        response_text response = Raise x ->
        send_message self message e
        = (Return (VStr ""),
           logged (Env w1 (logs e)) ERROR
             ("Error sending message in Gemini chat: " ++ exn_msg x))).
Proof.
  split; [exact generate_text_total|].
  split; [exact send_message_total|].
  repeat split.
  - intros self contents e x w1 Hc.
    unfold generate_text, try_except, bind, sdk, zoom. now rewrite Hc.
  - intros self contents e cfg x w1 w2 Hc Hg.
    unfold generate_text, try_except, bind, sdk, zoom. rewrite Hc. simpl.
    now rewrite Hg.
  - intros self contents e cfg response x w1 w2 Hc Hg Ht.
    unfold generate_text, try_except, bind, sdk, zoom, attr. rewrite Hc. simpl.
    rewrite Hg. simpl. now rewrite Ht.
  - intros self message e x w1 Hs.
    unfold send_message, try_except, bind, sdk, zoom. now rewrite Hs.
  - intros self message e response x w1 Hs Ht.
    unfold send_message, try_except, bind, sdk, zoom, attr. rewrite Hs. simpl.
    now rewrite Ht.
Qed.



(** Once the stream is open, the first [next] of the generator is the
    [next] of a generator suspended on that stream. *)
Lemma generator_next_created self contents e cfg response w1 w2 :
  GenerateContentConfig (temperature self) (world e) = (Return cfg, w1) ->
  generate_content_stream (client self) (model_name self) contents cfg w1
  = (Return response, w2) ->
  generator_next (GenCreated self contents) e
  = generator_next (GenSuspended response) (Env w2 (logs e)).
Proof.
  intros Hc Hs. simpl. unfold try_except, bind, sdk, zoom.
  rewrite Hc. simpl. rewrite Hs. reflexivity.
Qed.

(** A generator suspended on a stream that delivers [cs] and then ends,
    normally or not, yields the fragments of [cs] and stops. *)
Lemma consume_suspended response w cs fin w' :
  stream_run response w cs fin w' ->
  forall fuel l, length (fragments cs) < fuel ->
  exists e', consume fuel (GenSuspended response) (Env w l)
             = (Return (fragments cs), GenClosed, e', true).
Proof.
  induction 1 as [w w' Hn|w w' x Hn|w w1 c cs fin w' Hn Hrun IH];
    intros fuel l Hfuel; (destruct fuel as [|fuel]; [exfalso; exact (Nat.nlt_0_r _ Hfuel)|]).
  - simpl. unfold try_except, stream_loop, bind, sdk, zoom. simpl.
    rewrite Hn. simpl. eauto.
  - simpl. unfold try_except, stream_loop, bind, sdk, zoom. simpl.
    rewrite Hn. simpl. eauto.
  - cbn [consume generator_next].
    unfold try_except, stream_loop, bind, sdk, zoom, attr. simpl.
    rewrite Hn. simpl. simpl in Hfuel.
    destruct (response_text c) as [t|x] eqn:Ht; simpl.
    + simpl in Hfuel. apply Nat.succ_lt_mono in Hfuel.
      destruct (IH fuel l Hfuel) as [e' He']. rewrite He'. eauto.
    + eauto.
Qed.


Lemma comprehension_complete {S} (history : list (value * list Part)) (s : S) :
  Forall (fun m => snd m <> []) history ->
  exists turns,
    comprehension history s = (Return turns, s)
    /\ Forall2 (fun m t => exists p rest,
                   snd m = p :: rest /\ t = Turn (fst m) (part_text p)) history turns.
Proof.
  induction 1 as [|[r parts] rest Hparts Hrest (turns & Hrun & Hturns)].
  - exists []. split; [reflexivity|constructor].
  - simpl in Hparts. destruct parts as [|p ps]; [congruence|].
    exists (Turn r (part_text p) :: turns). split.
    + cbn [comprehension first_part_text]. unfold bind, ret in *. simpl.
      now rewrite Hrun.
    + constructor; [|assumption]. exists p, ps. simpl. auto.
Qed.

Lemma comprehension_index_error {S} (history : list (value * list Part)) (s : S) :
  Exists (fun m => snd m = []) history ->
  comprehension history s = (Raise (IndexError "list index out of range"), s).
Proof.
  induction history as [|[r parts] rest IH]; intros Hex.
  - inversion Hex.
  - destruct parts as [|p ps].
    + reflexivity.
    + assert (Hrest : Exists (fun m => snd m = []) rest).
      { inversion Hex as [? ? Hhd|? ? Htl]; subst; [discriminate Hhd|exact Htl]. }
      cbn [comprehension first_part_text]. unfold bind, ret. simpl.
      now rewrite (IH Hrest).
Qed.

(** C10. When the session delivers its history and every message has a
    first part, [get_history] returns one turn per message, in order, with
    the message's role and the text of its first part (the other parts play
    no role).  When some message has no part, the whole result is the empty
    sequence, and the index error is logged. *)
Theorem get_history_first_parts :
  (forall self e history w1,
      session_get_history (chat_session self) (world e) = (Return history, w1) ->
      Forall (fun m => snd m <> []) history ->
      exists turns,
        get_history self e = (Return turns, Env w1 (logs e))
        /\ Forall2 (fun m t => exists p rest,
                       snd m = p :: rest /\ t = Turn (fst m) (part_text p))
             history turns)
  /\ (forall self e history w1,
        session_get_history (chat_session self) (world e) = (Return history, w1) ->
        Exists (fun m => snd m = []) history ->
        get_history self e
        = (Return [],
           logged (Env w1 (logs e)) ERROR
             "Error retrieving Gemini chat history: list index out of range")).
Proof.
  split.
  - intros self e history w1 Hh Hall.
    destruct (comprehension_complete history (Env w1 (logs e)) Hall)
      as (turns & Hrun & Hturns).
    exists turns. split; [|exact Hturns].
    unfold get_history, try_except, bind, sdk, zoom. rewrite Hh. simpl.
    now rewrite Hrun.
  - intros self e history w1 Hh Hex.
    unfold get_history, try_except, bind, sdk, zoom. rewrite Hh. simpl.
    now rewrite (comprehension_index_error history (Env w1 (logs e)) Hex).
Qed.

End Facts.

Section EndlessStream.

#[local] Existing Instance Endless.service.



End EndlessStream.

#[local] Existing Instance Scripted.service.

(** The remote service answers 503: both operations return the empty
    string. *)
Lemma generation_failure_witness :
  generate_text Scripted.gemini [Scripted.Fault "503"] Scripted.quiet
  = (Return (VStr ""),
     logged Scripted.quiet ERROR "Error generating content with Gemini: 503")
  /\ send_message (Scripted.chat []) "" Scripted.quiet
     = (Return (VStr ""),
        logged Scripted.quiet ERROR "Error sending message in Gemini chat: empty message").
Proof.
  destruct (@generation_failure_returns_empty_string Scripted.service)
    as (_ & _ & _ & Hg & _ & Hs & _).
  split.
  - apply (Hg Scripted.gemini [Scripted.Fault "503"] Scripted.quiet
              (VFloat 0) (Scripted.ServerError "503")
              (@nil Scripted.reply) (@nil Scripted.reply)); reflexivity.
  - apply (Hs (Scripted.chat []) "" Scripted.quiet
              (Scripted.ServerError "empty message") (@nil Scripted.reply)); reflexivity.
Defined.


(** A history of two messages, the first with two parts; and a history in
    which the second message has no part. *)
Lemma get_history_witness :
  (exists turns,
     get_history
       (Scripted.chat [(VStr "user", ["hi"; "dropped"]); (VStr "model", ["hello"])])
       Scripted.quiet
     = (Return turns, Scripted.quiet)
     /\ Forall2 (fun m t => exists p rest,
                    snd m = p :: rest /\ t = Turn (fst m) (VStr p))
          [(VStr "user", ["hi"; "dropped"]); (VStr "model", ["hello"])] turns)
  /\ get_history (Scripted.chat [(VStr "user", ["hi"]); (VStr "model", [])])
       Scripted.quiet
     = (Return [],
        logged Scripted.quiet ERROR
          "Error retrieving Gemini chat history: list index out of range").
Proof.
  destruct (@get_history_first_parts Scripted.service) as (Hall & Hone).
  split.
  - apply (Hall (Scripted.chat
                   [(VStr "user", ["hi"; "dropped"]); (VStr "model", ["hello"])])
                Scripted.quiet
                [(VStr "user", ["hi"; "dropped"]); (VStr "model", ["hello"])]
                (@nil Scripted.reply)).
    + reflexivity.
    + repeat constructor; simpl; discriminate.
  - apply (Hone (Scripted.chat [(VStr "user", ["hi"]); (VStr "model", [])])
                Scripted.quiet [(VStr "user", ["hi"]); (VStr "model", [])]
                (@nil Scripted.reply)).
    + reflexivity.
    + apply Exists_cons_tl, Exists_cons_hd. reflexivity.
Defined.

End GeminiFacts.

(** * Properties of the router *)

Module RouterFacts.
Import Router.
Section Facts.
Context `{GenAI} {openai : OpenAI} {text : Str}.

(** Unfolding the monad. *)
Ltac unmonad :=
  unfold bind, ret, raise, try_except, get, modify, zoom, attr in *.

Lemma call_class_run k kwargs (s : state) :
  call_class k kwargs s
  = match cls_init k kwargs (proc s) with
    | (Return p, e') =>
        (Return {| obj_id := next_id s; obj_type := cls_name k; obj_state := p |},
         after_call k kwargs e' (S (next_id s)) s)
    | (Raise x, e') => (Raise x, after_call k kwargs e' (next_id s) s)
    end.
Proof.
  unfold call_class. unmonad. simpl.
  destruct (cls_init k kwargs (proc s)) as [[p|x] e']; reflexivity.
Qed.

Lemma provider_of_frame config (s : state) r s' :
  provider_of config s = (r, s') -> s' = s.
Proof.
  unfold provider_of. unmonad.
  destruct (default (VStr "openai") (config !! "provider")); now intros [= _ <-].
Qed.

Lemma provider_of_text config (s : state) :
  provider_is_text config -> exists p, provider_of config s = (Return p, s).
Proof.
  unfold provider_is_text, provider_of.
  destruct (config !! "provider") as [[| | | |p]|]; simpl; try tauto; eauto.
Qed.

(** Resolution touches nothing but the log, and raises only where
    [provider_of] does. *)
Lemma resolve_provider_run config (s : state) :
  match provider_of config s with
  | (Return p, _) =>
      exists q e, resolve_provider config s = (Return q, set_proc e s)
                  /\ world e = world (proc s)
                  /\ (q = p \/ q = "openai")
  | (Raise x, _) => resolve_provider config s = (Raise x, s)
  end.
Proof.
  unfold resolve_provider. unmonad.
  destruct (provider_of config s) as [[p|x] s1] eqn:Hp;
    apply provider_of_frame in Hp as ->; [|reflexivity].
  case_bool_decide as Hknown; simpl.
  - destruct (bool_decide (p = "gemini") && _) eqn:Hg; simpl.
    + eexists _, _. split; [reflexivity|]. auto.
    + exists p, (proc s). destruct s. simpl. auto.
  - eexists _, _. split; [reflexivity|]. auto.
Qed.

Lemma resolve_provider_frame config (s : state) r s' :
  resolve_provider config s = (r, s') ->
  self s' = self s /\ next_id s' = next_id s /\ constructions s' = constructions s
  /\ world (proc s') = world (proc s).
Proof.
  intros Hr. pose proof (resolve_provider_run config s) as Hrun.
  destruct (provider_of config s) as [[p|x] s1].
  - destruct Hrun as (q & e & Hq & Hw & _). rewrite Hq in Hr.
    injection Hr as _ <-. simpl. auto.
  - rewrite Hrun in Hr. injection Hr as _ <-. auto.
Qed.

Lemma resolve_provider_text config (s : state) :
  provider_is_text config -> exists p s', resolve_provider config s = (Return p, s').
Proof.
  intros Ht. pose proof (resolve_provider_run config s) as Hrun.
  destruct (provider_of_text config s Ht) as [p Hp]. rewrite Hp in Hrun.
  destruct Hrun as (q & e & Hq & _). eauto.
Qed.

Lemma resolve_provider_raises config (s : state) x s' :
  resolve_provider config s = (Raise x, s') -> ~ provider_is_text config.
Proof.
  intros Hr Ht. destruct (resolve_provider_text config s Ht) as (p & s1 & Hp).
  congruence.
Qed.

(** The three stages of [_create_model_from_config]. *)
Lemma create_run config (s : state) :
  _create_model_from_config config s
  = match resolve_provider config s with
    | (Return p, s1) =>
        match construct p config s1 with
        | (Return m, s2) => (Return m, s2)
        | (Raise e, s2) => fallback p e s2
        end
    | (Raise x, s1) => (Raise x, s1)
    end.
Proof. reflexivity. Qed.

Lemma fallback_run p e (s : state) :
  fallback p e s
  = match call_class OpenAIModel gpt4_kwargs (logged s ERROR (fallback_message p e)) with
    | (Return m, s') => (Return m, s')
    | (Raise _, s') => (Raise (ValueError ("Failed to create model: " ++ exn_msg e)), s')
    end.
Proof. reflexivity. Qed.

(** A call of a class leaves the router alone; the instance it returns has
    the identity that was free. *)
Lemma call_class_frame k kwargs (s : state) r s' :
  call_class k kwargs s = (r, s') ->
  self s' = self s
  /\ constructions s' = (constructions s ++ [(cls_name k, kwargs)])%list
  /\ match r with
     | Return m => obj_id m = next_id s /\ next_id s' = S (next_id s)
     | Raise _ => next_id s' = next_id s
     end.
Proof.
  rewrite call_class_run.
  destruct (cls_init k kwargs (proc s)) as [[p|x] e']; intros [= <- <-]; simpl; auto.
Qed.

Lemma construct_frame p config (s : state) r s' :
  construct p config s = (r, s') ->
  self s' = self s
  /\ match r with
     | Return m => obj_id m = next_id s /\ next_id s' = S (next_id s)
     | Raise _ => next_id s' = next_id s
     end.
Proof.
  unfold construct. unmonad.
  destruct (model_classes (self s) !! p) as [k|].
  - intros Hc. apply call_class_frame in Hc. tauto.
  - intros [= <- <-]. auto.
Qed.

Lemma fallback_frame p e (s : state) r s' :
  fallback p e s = (r, s') ->
  self s' = self s
  /\ match r with
     | Return m => obj_id m = next_id s /\ next_id s' = S (next_id s)
     | Raise _ => next_id s' = next_id s
     end.
Proof.
  rewrite fallback_run.
  destruct (call_class _ _ _) as [[m|x] s1] eqn:Hc; intros [= <- <-];
    apply call_class_frame in Hc; simpl in Hc; tauto.
Qed.

(** [_create_model_from_config] never writes to the router, and what it
    returns is a new object. *)
Lemma create_frame config (s : state) r s' :
  _create_model_from_config config s = (r, s') ->
  self s' = self s
  /\ match r with
     | Return m => obj_id m = next_id s /\ next_id s' = S (next_id s)
     | Raise _ => next_id s' = next_id s
     end.
Proof.
  rewrite create_run.
  destruct (resolve_provider config s) as [[p|x] s1] eqn:Hr;
    apply resolve_provider_frame in Hr as (Hself & Hid & _).
  - destruct (construct p config s1) as [[m|e] s2] eqn:Hc;
      apply construct_frame in Hc as (Hself2 & Hid2).
    + intros [= <- <-]. rewrite Hself2, Hself, <- Hid. auto.
    + intros Hf. apply fallback_frame in Hf as (Hself3 & Hid3).
      rewrite Hself3, Hself2, Hself, <- Hid, <- Hid2. auto.
  - intros [= <- <-]. auto.
Qed.

Lemma get_default_model_run (s : state) :
  get_default_model s
  = match default_model (self s) with
    | Some m => (Return m, s)
    | None =>
        match _create_model_from_config (default_model_config (self s)) s with
        | (Return m, s1) => (Return m, set_default_model m s1)
        | (Raise x, s1) => (Raise x, s1)
        end
    end.
Proof.
  unfold get_default_model. unmonad.
  destruct (default_model (self s)); [reflexivity|].
  destruct (_create_model_from_config _ s) as [[m|x] s1]; reflexivity.
Qed.

(** The parts of the router a call of [get_default_model] can change: only
    the cached default. *)
Lemma get_default_model_frame (s : state) r s' :
  get_default_model s = (r, s') ->
  models (self s') = models (self s)
  /\ model_classes (self s') = model_classes (self s)
  /\ default_model_config (self s') = default_model_config (self s)
  /\ match r with
     | Return m => default_model (self s') = Some m
     | Raise _ => default_model (self s') = None /\ default_model (self s) = None
     end.
Proof.
  rewrite get_default_model_run.
  destruct (default_model (self s)) as [m0|] eqn:Hd.
  - intros [= <- <-]. auto.
  - destruct (_create_model_from_config _ s) as [[m|x] s1] eqn:Hc;
      apply create_frame in Hc as (Hself & _); intros [= <- <-]; simpl;
      rewrite ?Hself; auto.
Qed.

Lemma get_model_run arg (s : state) :
  get_model arg s
  = match arg with
    | ByName name =>
        match models (self s) !! name with
        | Some m => (Return m, s)
        | None =>
            get_default_model
              (logged s WARNING ("Model '" ++ name ++ "' not found. Using default model."))
        end
    | ByConfig config => _create_model_from_config config s
    | ByOther rendering =>
        get_default_model (logged s ERROR ("Invalid model specification: " ++ rendering))
    end.
Proof.
  destruct arg as [name|config|rendering]; simpl; [|reflexivity|reflexivity].
  unmonad. destruct (models (self s) !! name); reflexivity.
Qed.

(** The cached default, once set, stays: no operation of the router clears
    or replaces it. *)
Lemma exec_default_model_stable c (s : state) m :
  default_model (self s) = Some m -> default_model (self (exec c s)) = Some m.
Proof.
  intros Hd.
  assert (Hdef : forall (t : state), default_model (self t) = Some m ->
                   default_model (self (snd (get_default_model t))) = Some m).
  { intros t Ht. rewrite get_default_model_run, Ht. exact Ht. }
  assert (Hcre : forall config, default_model
                   (self (snd (_create_model_from_config config s))) = Some m).
  { intros config. destruct (_create_model_from_config config s) as [r s'] eqn:Hc.
    apply create_frame in Hc as (Hself & _). simpl. now rewrite Hself. }
  destruct c as [name model|provider k|arg| |task req|config]; simpl; auto.
  - rewrite get_model_run. destruct arg as [name|config|rendering]; auto.
    destruct (models (self s) !! name); auto.
  - destruct req as [r|]; simpl; auto. destruct (truthy r); auto.
Qed.

(** The name registry is written by [register_model] only. *)
Lemma exec_models_unregistered c (s : state) name :
  (forall model, c <> RegisterModel name model) ->
  models (self (exec c s)) !! name = models (self s) !! name.
Proof.
  intros Hc.
  assert (Hdef : forall (t : state), models (self (snd (get_default_model t)))
                                     = models (self t)).
  { intros t. destruct (get_default_model t) as [r t'] eqn:Hg.
    now apply get_default_model_frame in Hg as (Hm & _). }
  assert (Hcre : forall config (t : state),
             models (self (snd (_create_model_from_config config t))) = models (self t)).
  { intros config t. destruct (_create_model_from_config config t) as [r t'] eqn:Hg.
    apply create_frame in Hg as (Hself & _). simpl. now rewrite Hself. }
  destruct c as [name' model|provider k|arg| |task req|config]; simpl;
    rewrite ?Hdef, ?Hcre; auto.
  - apply lookup_insert_ne. intros ->. now apply (Hc model).
  - rewrite get_model_run. destruct arg as [name'|config|rendering];
      rewrite ?Hdef, ?Hcre; auto.
    destruct (models (self s) !! name'); rewrite ?Hdef; auto.
  - destruct req as [r|]; simpl; rewrite ?Hdef; auto.
    destruct (truthy r); rewrite ?Hdef, ?Hcre; auto.
Qed.

Lemma run_models_unregistered cs (s : state) name :
  (forall model, RegisterModel name model ∉ cs) ->
  models (self (run cs s)) !! name = models (self s) !! name.
Proof.
  revert s. induction cs as [|c cs IH]; intros s Hcs; [reflexivity|].
  change (run (c :: cs) s) with (run cs (exec c s)). rewrite IH.
  - apply exec_models_unregistered. intros model ->.
    apply (Hcs model). left.
  - intros model Hin. apply (Hcs model). now right.
Qed.

Lemma run_default_model_stable cs (s : state) m :
  default_model (self s) = Some m -> default_model (self (run cs s)) = Some m.
Proof.
  revert s. induction cs as [|c cs IH]; intros s Hd; [exact Hd|].
  change (run (c :: cs) s) with (run cs (exec c s)).
  apply IH. now apply exec_default_model_stable.
Qed.

(** C4. On a router without a cached default, [get_default_model] builds
    the model from the router's default configuration and caches it.  Once a
    call has returned an instance, every later call returns that very
    instance and leaves the state as it is, nothing being built again,
    whatever other calls of the router come in between. *)
Theorem get_default_model_is_memoized :
  (forall s : state,
      default_model (self s) = None ->
      get_default_model s
      = match _create_model_from_config (default_model_config (self s)) s with
        | (Return m, s1) => (Return m, set_default_model m s1)
        | (Raise x, s1) => (Raise x, s1)
        end)
  /\ (forall (s : state) m s1,
        get_default_model s = (Return m, s1) ->
        default_model (self s1) = Some m
        /\ get_default_model s1 = (Return m, s1))
  /\ (forall (s : state) m s1 cs,
        get_default_model s = (Return m, s1) ->
        get_default_model (run cs s1) = (Return m, run cs s1)).
Proof.
  assert (Hcached : forall (s : state) m s1,
             get_default_model s = (Return m, s1) -> default_model (self s1) = Some m).
  { intros s m s1 Hg. now apply get_default_model_frame in Hg as (_ & _ & _ & Hd). }
  split; [|split].
  - intros s Hd. now rewrite get_default_model_run, Hd.
  - intros s m s1 Hg. split; [eauto|].
    rewrite get_default_model_run. now rewrite (Hcached _ _ _ Hg).
  - intros s m s1 cs Hg. rewrite get_default_model_run.
    now rewrite (run_default_model_stable cs s1 m (Hcached _ _ _ Hg)).
Qed.

(** C5, amended. For a name no [register_model] call was made for,
    [get_model(name)] logs a warning and is [get_default_model()]: it returns
    the cached default when there is one, the instance it returns is the one
    [get_default_model()] returns from then on, and it raises exactly when
    building the default model raises, never because of the name. *)
Theorem get_model_unknown_name_is_default :
  forall e n dcfg cs name,
    (forall model, RegisterModel name model ∉ cs) ->
    let s := run cs (boot e n dcfg) in
    let s0 := logged s WARNING ("Model '" ++ name ++ "' not found. Using default model.") in
    get_model (ByName name) s = get_default_model s0
    /\ (forall m, default_model (self s) = Some m ->
          get_model (ByName name) s = (Return m, s0))
    /\ (forall m s', get_model (ByName name) s = (Return m, s') ->
          get_default_model s' = (Return m, s'))
    /\ (forall x s', get_model (ByName name) s = (Raise x, s') ->
          default_model (self s) = None
          /\ _create_model_from_config (default_model_config (self s)) s0 = (Raise x, s')).
Proof.
  intros e n dcfg cs name Hcs s s0.
  assert (Hnone : models (self s) !! name = None).
  { unfold s. now rewrite (run_models_unregistered cs _ name Hcs). }
  assert (Heq : get_model (ByName name) s = get_default_model s0).
  { rewrite get_model_run. now rewrite Hnone. }
  split; [exact Heq|]. rewrite Heq. split; [|split].
  - intros m Hd. rewrite get_default_model_run. simpl. now rewrite Hd.
  - intros m s' Hg. rewrite get_default_model_run.
    now apply get_default_model_frame in Hg as (_ & _ & _ & ->).
  - intros x s' Hg. rewrite get_default_model_run in Hg. simpl in Hg.
    destruct (default_model (self s)); [discriminate|].
    split; [reflexivity|].
    destruct (_create_model_from_config _ s0) as [[m|y] s1]; [discriminate|].
    exact Hg.
Qed.

Lemma truthy_nonempty (d : gmap string value) : truthy d = true <-> d <> ∅.
Proof.
  unfold truthy. rewrite negb_true_iff, Nat.eqb_neq. now rewrite map_size_non_empty_iff.
Qed.

(** C8, amended. With a non-empty requirements mapping,
    [select_model_for_task] is [_create_model_from_config] on the
    requirements: the instance it returns is a new object and the router is
    left as it was, so nothing is cached, and a second call with the same
    requirements returns another object.  With requirements absent or empty
    it is [get_default_model].  The task plays no role. *)
Theorem select_model_for_task_builds_or_defaults :
  (forall task r (s : state),
      r <> ∅ ->
      select_model_for_task task (Some r) s = _create_model_from_config r s)
  /\ (forall r (s : state) m s',
        _create_model_from_config r s = (Return m, s') ->
        self s' = self s /\ obj_id m = next_id s /\ next_id s' = S (next_id s))
  /\ (forall task1 task2 r (s : state) m1 s1 m2 s2,
        r <> ∅ ->
        select_model_for_task task1 (Some r) s = (Return m1, s1) ->
        select_model_for_task task2 (Some r) s1 = (Return m2, s2) ->
        obj_id m1 <> obj_id m2)
  /\ (forall task (s : state),
        select_model_for_task task None s = get_default_model s
        /\ select_model_for_task task (Some ∅) s = get_default_model s)
  /\ (forall task1 task2 requirements (s : state),
        select_model_for_task task1 requirements s
        = select_model_for_task task2 requirements s).
Proof.
  assert (Hbuild : forall task r (s : state),
             r <> ∅ ->
             select_model_for_task task (Some r) s = _create_model_from_config r s).
  { intros task r s Hr. apply truthy_nonempty in Hr.
    unfold select_model_for_task. now rewrite Hr. }
  split; [exact Hbuild|]. split; [|split; [|split]].
  - intros r s m s' Hc. apply create_frame in Hc. tauto.
  - intros task1 task2 r s m1 s1 m2 s2 Hr H1 H2.
    rewrite Hbuild in H1, H2 by exact Hr.
    apply create_frame in H1 as (_ & Hid1 & Hnext).
    apply create_frame in H2 as (_ & Hid2 & _).
    rewrite Hid1, Hid2, Hnext. apply Nat.neq_succ_diag_r.
  - intros task s. split; reflexivity.
  - intros task1 task2 requirements s. reflexivity.
Qed.

Lemma resolve_unknown config (s : state) p :
  config !! "provider" = Some (VStr p) ->
  model_classes (self s) !! str_lower p = None ->
  resolve_provider config s
  = (Return "openai",
     logged s ERROR ("Unknown model provider: " ++ str_lower p ++ ". Using OpenAI as fallback.")).
Proof.
  intros Hp Hunknown.
  unfold resolve_provider, provider_of. rewrite Hp. unmonad. simpl.
  rewrite Hunknown. rewrite bool_decide_eq_false_2 by (intros [k Hk]; discriminate).
  reflexivity.
Qed.

Lemma construct_registered p k config (s : state) :
  model_classes (self s) !! p = Some k ->
  construct p config s = call_class k (delete "provider" config) s.
Proof. intros Hk. unfold construct. unmonad. now rewrite Hk. Qed.

(** A provider whose lower-case form is a key of the registry is resolved
    to that key, and the constructor registered under it is the one called. *)
Lemma resolve_registered config (s : state) p k :
  config !! "provider" = Some (VStr p) ->
  model_classes (self s) !! str_lower p = Some k ->
  exists s1,
    resolve_provider config s = (Return (str_lower p), s1)
    /\ self s1 = self s
    /\ _create_model_from_config config s
       = try_except (call_class k (delete "provider" config)) (fallback (str_lower p)) s1.
Proof.
  intros Hp Hk.
  assert (Hr : exists s1, resolve_provider config s = (Return (str_lower p), s1)).
  { unfold resolve_provider, provider_of. rewrite Hp. unmonad. simpl.
    rewrite Hk. rewrite bool_decide_eq_true_2 by eauto.
    destruct (bool_decide (str_lower p = "gemini") && _); simpl; eauto. }
  destruct Hr as [s1 Hr]. exists s1. split; [exact Hr|].
  pose proof (resolve_provider_frame _ _ _ _ Hr) as (Hself & _).
  split; [exact Hself|].
  unfold _create_model_from_config. unfold bind at 1. rewrite Hr.
  unfold try_except. rewrite (construct_registered (str_lower p) k); [reflexivity|].
  now rewrite Hself.
Qed.

(** A provider given in its lower-case form and registered under it is
    resolved to itself, and its constructor is the one called. *)
Lemma resolve_known config (s : state) p k :
  config !! "provider" = Some (VStr p) ->
  case_normalized p ->
  model_classes (self s) !! p = Some k ->
  exists s1,
    resolve_provider config s = (Return p, s1)
    /\ self s1 = self s
    /\ _create_model_from_config config s
       = try_except (call_class k (delete "provider" config)) (fallback p) s1.
Proof.
  intros Hp Hnorm Hk. unfold case_normalized in Hnorm.
  rewrite <- Hnorm in Hk. destruct (resolve_registered config s p k Hp Hk) as (s1 & Hr).
  rewrite Hnorm in Hr. eauto.
Qed.

(** C3, amended. When the provider field is a string whose lower-case form
    is not a key of the class registry, resolution logs the error, answers
    "openai" without raising, and the constructor that is then called is the
    one registered for "openai", on the configuration without its provider
    field. *)
Theorem unknown_provider_falls_back_to_openai :
  forall config (s : state) p,
    config !! "provider" = Some (VStr p) ->
    model_classes (self s) !! str_lower p = None ->
    let s1 := logged s ERROR
                ("Unknown model provider: " ++ str_lower p ++ ". Using OpenAI as fallback.") in
    resolve_provider config s = (Return "openai", s1)
    /\ _create_model_from_config config s
       = try_except (construct "openai" config) (fallback "openai") s1
    /\ (forall k, model_classes (self s) !! "openai" = Some k ->
          construct "openai" config s1 = call_class k (delete "provider" config) s1).
Proof.
  intros config s p Hp Hunknown s1.
  pose proof (resolve_unknown config s p Hp Hunknown) as Hr. fold s1 in Hr.
  split; [exact Hr|]. split.
  - unfold _create_model_from_config. unfold bind at 1. now rewrite Hr.
  - intros k Hk. now apply construct_registered.
Qed.

(** C2, amended. When the constructor of the resolved provider raises, the
    router logs the error and calls [OpenAIModel(model_name="gpt-4")] once:
    it returns that instance, or, if this call raises too, raises
    [ValueError].  When the constructor returns there is no second call.
    For a configuration whose provider field is absent or a string this is
    the only way [_create_model_from_config] raises.  The other operations
    of the router raise only when their own call of it does:
    [get_default_model] when no default is cached and the call on the default
    configuration raises, [get_model] on a configuration when the call on it
    raises and on an unregistered name or another object when
    [get_default_model] does, [select_model_for_task] when the call on the
    non-empty requirements raises or else when [get_default_model] does. *)
Theorem fallback_failure_is_the_only_raise :
  (forall config (s : state) p s1 e s2,
      resolve_provider config s = (Return p, s1) ->
      construct p config s1 = (Raise e, s2) ->
      let s3 := logged s2 ERROR (fallback_message p e) in
      _create_model_from_config config s
      = match call_class OpenAIModel gpt4_kwargs s3 with
        | (Return m, s4) => (Return m, s4)
        | (Raise _, s4) =>
            (Raise (ValueError ("Failed to create model: " ++ exn_msg e)), s4)
        end
      /\ constructions (snd (_create_model_from_config config s))
         = (constructions s2 ++ [(cls_name OpenAIModel, gpt4_kwargs)])%list)
  /\ (forall config (s : state) p s1 m s2,
        resolve_provider config s = (Return p, s1) ->
        construct p config s1 = (Return m, s2) ->
        _create_model_from_config config s = (Return m, s2))
  /\ (forall config (s : state) x s',
        provider_is_text config ->
        _create_model_from_config config s = (Raise x, s') ->
        exists p s1 e s2,
          resolve_provider config s = (Return p, s1)
          /\ construct p config s1 = (Raise e, s2)
          /\ raises (fst (call_class OpenAIModel gpt4_kwargs
                            (logged s2 ERROR (fallback_message p e)))) = true
          /\ x = ValueError ("Failed to create model: " ++ exn_msg e))
  /\ (forall (s : state) x s',
        get_default_model s = (Raise x, s') ->
        default_model (self s) = None
        /\ _create_model_from_config (default_model_config (self s)) s = (Raise x, s'))
  /\ (forall arg (s : state) x s',
        get_model arg s = (Raise x, s') ->
        match arg with
        | ByName name =>
            let s0 := logged s WARNING
                        ("Model '" ++ name ++ "' not found. Using default model.") in
            models (self s) !! name = None
            /\ default_model (self s) = None
            /\ _create_model_from_config (default_model_config (self s)) s0 = (Raise x, s')
        | ByConfig config => _create_model_from_config config s = (Raise x, s')
        | ByOther rendering =>
            let s0 := logged s ERROR ("Invalid model specification: " ++ rendering) in
            default_model (self s) = None
            /\ _create_model_from_config (default_model_config (self s)) s0 = (Raise x, s')
        end)
  /\ (forall task requirements (s : state) x s',
        select_model_for_task task requirements s = (Raise x, s') ->
        match requirements with
        | Some r =>
            if truthy r then _create_model_from_config r s = (Raise x, s')
            else default_model (self s) = None
                 /\ _create_model_from_config (default_model_config (self s)) s
                    = (Raise x, s')
        | None =>
            default_model (self s) = None
            /\ _create_model_from_config (default_model_config (self s)) s = (Raise x, s')
        end).
Proof.
  assert (Hdef : forall (s : state) x s',
             get_default_model s = (Raise x, s') ->
             default_model (self s) = None
             /\ _create_model_from_config (default_model_config (self s)) s = (Raise x, s')).
  { intros s x s'. rewrite get_default_model_run.
    destruct (default_model (self s)); [discriminate|].
    destruct (_create_model_from_config _ s) as [[m|y] s1]; [discriminate|auto]. }
  split; [|split; [|split; [|split; [|split]]]].
  - intros config s p s1 e s2 Hr Hc s3.
    assert (Hrun : _create_model_from_config config s = fallback p e s2).
    { rewrite create_run, Hr. now rewrite Hc. }
    rewrite Hrun, fallback_run. fold s3. split; [reflexivity|].
    destruct (call_class OpenAIModel gpt4_kwargs s3) as [[m|y] s4] eqn:Hf;
      apply call_class_frame in Hf as (_ & Hcalls & _); simpl; exact Hcalls.
  - intros config s p s1 m s2 Hr Hc. rewrite create_run, Hr. now rewrite Hc.
  - intros config s x s' Htext. rewrite create_run.
    destruct (resolve_provider config s) as [[p|y] s1] eqn:Hr.
    + destruct (construct p config s1) as [[m|e] s2] eqn:Hc; [discriminate|].
      rewrite fallback_run.
      destruct (call_class OpenAIModel gpt4_kwargs _) as [[m|y] s4] eqn:Hf;
        [discriminate|].
      intros [= <- <-]. exists p, s1, e, s2. rewrite Hf. auto.
    + now apply resolve_provider_raises in Hr.
  - exact Hdef.
  - intros arg s x s'. rewrite get_model_run.
    destruct arg as [name|config|rendering]; simpl.
    + destruct (models (self s) !! name); [discriminate|].
      intros Hg. split; [reflexivity|]. exact (Hdef _ _ _ Hg).
    + auto.
    + intros Hg. exact (Hdef _ _ _ Hg).
  - intros task requirements s x s'. unfold select_model_for_task.
    destruct requirements as [r|]; [|apply Hdef].
    destruct (truthy r); [auto|apply Hdef].
Qed.

Lemma boot_keys_normalized e n dcfg : keys_normalized (self (boot e n dcfg)).
Proof.
  intros p k. simpl. rewrite lookup_insert_Some, lookup_singleton_Some.
  intros [[<- _]|[_ [<- _]]]; unfold case_normalized;
    now rewrite str_lower_ascii by reflexivity.
Qed.

(** The invariant survives every call except a registration under a key
    that is not in lower case. *)
Lemma exec_keys_normalized c (s : state) :
  (forall p k, c = RegisterModelClass p k -> case_normalized p) ->
  keys_normalized (self s) -> keys_normalized (self (exec c s)).
Proof.
  intros Hc Hinv.
  assert (Hdef : forall (t : state), model_classes (self (snd (get_default_model t)))
                                     = model_classes (self t)).
  { intros t. destruct (get_default_model t) as [r t'] eqn:Hg.
    now apply get_default_model_frame in Hg as (_ & Hm & _). }
  assert (Hcre : forall config (t : state),
             model_classes (self (snd (_create_model_from_config config t)))
             = model_classes (self t)).
  { intros config t. destruct (_create_model_from_config config t) as [r t'] eqn:Hg.
    apply create_frame in Hg as (Hself & _). simpl. now rewrite Hself. }
  unfold keys_normalized in *.
  destruct c as [name model|provider k0|arg| |task req|config]; simpl;
    rewrite ?Hdef, ?Hcre; auto.
  - intros p k. rewrite lookup_insert_Some. intros [[<- _]|[_ Hk]]; eauto.
  - rewrite get_model_run. destruct arg as [name|config|rendering];
      rewrite ?Hdef, ?Hcre; auto.
    destruct (models (self s) !! name); rewrite ?Hdef; auto.
  - destruct req as [r|]; simpl; rewrite ?Hdef; auto.
    destruct (truthy r); rewrite ?Hdef, ?Hcre; auto.
Qed.

(** C9: the code at the failing input.  A new router has lower-case keys
    only; after [register_model_class("Claude", K)] the key "Claude" is in the
    registry as given, and the invariant is gone. *)
Theorem register_model_class_stores_the_key_as_given :
  forall e n dcfg K,
    let s := boot e n dcfg in
    let s' := snd (register_model_class "Claude" K s) in
    keys_normalized (self s)
    /\ model_classes (self s') !! "Claude" = Some K
    /\ str_lower "Claude" = "claude"
    /\ ~ keys_normalized (self s').
Proof.
  intros e n dcfg K s s'.
  assert (Hk : model_classes (self s') !! "Claude" = Some K) by apply lookup_insert_eq.
  assert (Hlow : str_lower "Claude" = "claude") by now rewrite str_lower_ascii.
  split; [apply boot_keys_normalized|]. split; [exact Hk|]. split; [exact Hlow|].
  intros Hinv. specialize (Hinv "Claude" K Hk). unfold case_normalized in Hinv.
  rewrite Hlow in Hinv. discriminate Hinv.
Qed.

(** C1: the code at the failing input.  After
    [register_model_class("Claude", K)] on a new router the registry holds
    [K] under "Claude", yet a configuration with provider "Claude" is looked
    up as "claude", reported unknown and built by the constructor registered
    for "openai": [K] is never called. *)
Theorem mixed_case_registration_is_never_resolved :
  forall e n dcfg K kwargs,
    let s := snd (register_model_class "Claude" K (boot e n dcfg)) in
    let config := <["provider" := VStr "Claude"]> kwargs in
    let s1 := logged s ERROR "Unknown model provider: claude. Using OpenAI as fallback." in
    model_classes (self s) !! "Claude" = Some K
    /\ resolve_provider config s = (Return "openai", s1)
    /\ _create_model_from_config config s
       = try_except (call_class OpenAIModel (delete "provider" kwargs)) (fallback "openai") s1.
Proof.
  intros e n dcfg K kwargs s config s1.
  assert (Hlow : str_lower "Claude" = "claude") by now rewrite str_lower_ascii.
  assert (Hr : resolve_provider config s = (Return "openai", s1)).
  { pose proof (resolve_unknown config s "Claude") as Hu. rewrite Hlow in Hu.
    apply Hu; [apply lookup_insert_eq|reflexivity]. }
  split; [apply lookup_insert_eq|]. split; [exact Hr|].
  unfold _create_model_from_config. unfold bind at 1. rewrite Hr.
  unfold try_except. rewrite (construct_registered "openai" OpenAIModel).
  - unfold config. now rewrite delete_insert_eq.
  - reflexivity.
Qed.

(** Registration under a lower-case key followed by a configuration naming
    that key: the registered constructor is the one called. *)
Lemma registration_round_trip p K kwargs (s : state) :
  case_normalized p ->
  let s' := snd (register_model_class p K s) in
  exists s1,
    self s1 = self s'
    /\ _create_model_from_config (<["provider" := VStr p]> kwargs) s'
       = try_except (call_class K (delete "provider" kwargs)) (fallback p) s1.
Proof.
  intros Hnorm s'.
  destruct (resolve_known (<["provider" := VStr p]> kwargs) s' p K)
    as (s1 & _ & Hself & Hrun).
  - apply lookup_insert_eq.
  - exact Hnorm.
  - apply lookup_insert_eq.
  - exists s1. split; [exact Hself|]. rewrite Hrun. now rewrite delete_insert_eq.
Qed.

(** For a key in lower-case form the resolution is as intended: when the
    registered constructor returns, the instance is the one it built. *)
Lemma normalized_provider_builds_registered config (s : state) p k :
  config !! "provider" = Some (VStr p) ->
  case_normalized p ->
  model_classes (self s) !! p = Some k ->
  exists s1,
    resolve_provider config s = (Return p, s1)
    /\ forall payload e',
         cls_init k (delete "provider" config) (proc s1) = (Return payload, e') ->
         _create_model_from_config config s
         = (Return {| obj_id := next_id s; obj_type := cls_name k; obj_state := payload |},
            after_call k (delete "provider" config) e' (S (next_id s)) s1).
Proof.
  intros Hp Hnorm Hk.
  destruct (resolve_known config s p k Hp Hnorm Hk) as (s1 & Hr & Hself & Hrun).
  exists s1. split; [exact Hr|]. intros payload e' Hinit.
  rewrite Hrun. unfold try_except. rewrite call_class_run, Hinit.
  apply resolve_provider_frame in Hr as (_ & Hid & _). now rewrite Hid.
Qed.

Lemma run_keys_normalized cs (s : state) :
  (forall p k, RegisterModelClass p k ∈ cs -> case_normalized p) ->
  keys_normalized (self s) -> keys_normalized (self (run cs s)).
Proof.
  revert s. induction cs as [|c cs IH]; intros s Hcs Hinv; [exact Hinv|].
  change (run (c :: cs) s) with (run cs (exec c s)). apply IH.
  - intros p k Hin. apply (Hcs p k). now right.
  - apply exec_keys_normalized; [|exact Hinv].
    intros p k ->. apply (Hcs p k). left.
Qed.

End Facts.

#[local] Existing Instance Scripted.service.
#[local] Existing Instance Fixtures.ascii_text.

(** The same as a run on the scripted provider: with a class [ClaudeModel]
    that can always be built, the configuration naming "Claude" yields an
    [OpenAIModel]. *)
Example claude_configuration_builds_openai :
  model_classes (self Fixtures.with_claude) !! "Claude" = Some Fixtures.ClaudeModel
  /\ fst (_create_model_from_config (openai := Fixtures.up)
            {["provider" := VStr "Claude"]} Fixtures.with_claude)
     = Return {| obj_id := 0; obj_type := "OpenAIModel"; obj_state := Attributes ∅ |}.
Proof. split; reflexivity. Qed.

(** C2, counterexample. A configuration whose provider is [None] makes
    [_create_model_from_config] raise [AttributeError] before any constructor
    is called, although [OpenAIModel] can be built: a raise that is not the
    failure of the fallback. *)
Lemma none_provider_raises_attribute_error :
  _create_model_from_config (openai := Fixtures.up) {["provider" := VNone]} Fixtures.fresh
  = (Raise (AttributeError "'NoneType' object has no attribute 'lower'"), Fixtures.fresh)
  /\ constructions Fixtures.fresh = []
  /\ raises (fst (call_class (OpenAIModel (OpenAI := Fixtures.up)) gpt4_kwargs
                    Fixtures.fresh)) = false.
Proof. repeat split; reflexivity. Qed.

(** C3, counterexample. "GEMINI" is not a key of the registry, and yet it
    is not replaced by "openai": it is lower-cased, found, and a
    [GeminiModel] is built. *)
Lemma upper_case_gemini_is_not_replaced :
  Fixtures.gemini_upper !! "provider" = Some (VStr "GEMINI")
  /\ model_classes (self Fixtures.fresh) !! "GEMINI" = None
  /\ fst (resolve_provider Fixtures.gemini_upper Fixtures.fresh) = Return "gemini"
  /\ fst (resolve_provider Fixtures.gemini_upper Fixtures.fresh) <> Return "openai"
  /\ exists m,
       fst (_create_model_from_config (openai := Fixtures.up)
              Fixtures.gemini_upper Fixtures.fresh) = Return m
       /\ obj_type m = "GeminiModel".
Proof.
  split; [reflexivity|]. split; [reflexivity|]. split; [reflexivity|].
  split; [discriminate|]. eexists. split; reflexivity.
Qed.

(** C5, counterexample. Where [OpenAIModel] cannot be built, [get_model] on
    an unknown name raises. *)
Lemma unknown_name_raises_without_a_default :
  models (self Fixtures.orphan) !! "nope" = None
  /\ fst (get_model (openai := Fixtures.down) (ByName "nope") Fixtures.orphan)
     = Raise (ValueError "Failed to create model: The api_key client option must be set").
Proof. split; reflexivity. Qed.

(** C8, counterexample. Given the empty mapping as requirements,
    [select_model_for_task] does not build from it: it builds the default
    model from the default configuration and caches it. *)
Lemma empty_requirements_select_the_default :
  (exists m s',
     select_model_for_task (openai := Fixtures.up) "summarise" (Some ∅) Fixtures.fresh
     = (Return m, s')
     /\ default_model (self s') = Some m
     /\ constructions s'
        = [("OpenAIModel", {["model_name" := VStr "gpt-4"; "temperature" := VFloat 0]})])
  /\ constructions (snd (_create_model_from_config (openai := Fixtures.up) ∅ Fixtures.fresh))
     = [("OpenAIModel", ∅)]
  /\ default_model
       (self (snd (_create_model_from_config (openai := Fixtures.up) ∅ Fixtures.fresh)))
     = None.
Proof.
  split; [eexists _, _; repeat split; reflexivity|]. split; reflexivity.
Qed.

(** An unknown provider on a new router. *)
Lemma unknown_provider_witness :
  model_classes (self Fixtures.fresh) !! str_lower "anthropic" = None
  /\ resolve_provider Fixtures.anthropic Fixtures.fresh
     = (Return "openai",
        logged Fixtures.fresh ERROR
          "Unknown model provider: anthropic. Using OpenAI as fallback.").
Proof.
  split; [reflexivity|].
  exact (proj1 (unknown_provider_falls_back_to_openai (openai := Fixtures.up) (text := Fixtures.ascii_text)
                  Fixtures.anthropic Fixtures.fresh "anthropic" eq_refl eq_refl)).
Defined.

(** Gemini without a key: its constructor raises and the fallback is called
    once.  And a process in which [OpenAIModel] cannot be built: the raise is
    the [ValueError] of the fallback. *)
Lemma fallback_witness :
  constructions
    (snd (_create_model_from_config (openai := Fixtures.up)
            Fixtures.gemini_without_key Fixtures.fresh))
  = [("GeminiModel", ∅); ("OpenAIModel", gpt4_kwargs)]
  /\ exists e,
       fst (_create_model_from_config (openai := Fixtures.down)
              default_config Fixtures.orphan)
       = Raise (ValueError ("Failed to create model: " ++ exn_msg e)).
Proof.
  split.
  - destruct (fallback_failure_is_the_only_raise (openai := Fixtures.up) (text := Fixtures.ascii_text))
      as (Hfallback & _).
    exact (proj2 (Hfallback Fixtures.gemini_without_key Fixtures.fresh "gemini"
                    (snd (resolve_provider Fixtures.gemini_without_key Fixtures.fresh))
                    (ValueError "Missing key inputs argument!")
                    (snd (construct "gemini"
                            Fixtures.gemini_without_key
                            (snd (resolve_provider Fixtures.gemini_without_key
                                    Fixtures.fresh))))
                    eq_refl eq_refl)).
  - destruct (fallback_failure_is_the_only_raise (openai := Fixtures.down) (text := Fixtures.ascii_text))
      as (_ & _ & Honly & _).
    assert (Hraise : _create_model_from_config (openai := Fixtures.down)
                       default_config Fixtures.orphan
                     = (Raise (ValueError
                                 "Failed to create model: The api_key client option must be set"),
                        snd (_create_model_from_config (openai := Fixtures.down)
                               default_config Fixtures.orphan))) by reflexivity.
    destruct (Honly default_config Fixtures.orphan _ _ I Hraise)
      as (p & s1 & e & s2 & _ & _ & _ & Hx).
    exists e. rewrite <- Hx. reflexivity.
Defined.

(** The default model of a new router, asked for twice. *)
Lemma memoized_witness :
  exists m s1,
    get_default_model (openai := Fixtures.up) Fixtures.fresh = (Return m, s1)
    /\ get_default_model (openai := Fixtures.up) s1 = (Return m, s1).
Proof.
  eexists _, _. split; [reflexivity|].
  destruct (get_default_model_is_memoized (openai := Fixtures.up) (text := Fixtures.ascii_text)) as (_ & Hagain & _).
  exact (proj2 (Hagain Fixtures.fresh _ _ eq_refl)).
Defined.

(** A name that was not registered, after a history that registers another
    name and builds the default. *)
Lemma unknown_name_witness :
  get_model (openai := Fixtures.up) (ByName "nope")
    (run (openai := Fixtures.up) Fixtures.history Fixtures.fresh)
  = get_default_model (openai := Fixtures.up)
      (logged (run (openai := Fixtures.up) Fixtures.history Fixtures.fresh) WARNING
         "Model 'nope' not found. Using default model.").
Proof.
  refine (proj1 (get_model_unknown_name_is_default (openai := Fixtures.up) (text := Fixtures.ascii_text)
                   Scripted.quiet 0 None Fixtures.history "nope" _)).
  intros model Hin.
  apply elem_of_cons in Hin as [Hin|Hin]; [discriminate Hin|].
  apply elem_of_cons in Hin as [Hin|Hin]; [discriminate Hin|].
  inversion Hin.
Defined.

(** Requirements that are not empty. *)
Lemma select_model_for_task_witness :
  Fixtures.gemini_upper <> ∅
  /\ select_model_for_task (openai := Fixtures.up) "translate"
       (Some Fixtures.gemini_upper) Fixtures.fresh
     = _create_model_from_config (openai := Fixtures.up) Fixtures.gemini_upper Fixtures.fresh.
Proof.
  assert (Hne : Fixtures.gemini_upper <> ∅).
  { intros Heq. discriminate (f_equal (lookup "provider") Heq). }
  split; [exact Hne|].
  destruct (select_model_for_task_builds_or_defaults (openai := Fixtures.up) (text := Fixtures.ascii_text))
    as (Hbuild & _).
  exact (Hbuild "translate" Fixtures.gemini_upper Fixtures.fresh Hne).
Defined.

End RouterFacts.

(** * Further properties of the Gemini adapter *)

Module GeminiMore.
Import Gemini.
Import GeminiFacts.
Section Facts.
Context `{GenAI}.

(** X2. Construction succeeds exactly when the keywords hold no "self"
    and the SDK client can be created from the API key (the empty string
    when none is given).  A keyword "self" raises [TypeError] at the binding
    of the arguments, before the client is asked for, and nothing is logged.
    A failure of the client is logged once and raised again unchanged.  A
    built instance keeps the client, and its details give the provider
    "gemini" and the model name and temperature it was given (by default
    gemini-2.0-flash and 0.0), never the API key. *)
Theorem GeminiModel_init_outcome :
  forall kwargs e,
    match kwargs !! "self" with
    | Some _ =>
        GeminiModel_init kwargs e
        = (Raise (TypeError "GeminiModel.__init__() got multiple values for argument 'self'"),
           e)
    | None =>
        match genai_Client (kwarg kwargs "api_key" (VStr "")) (world e) with
        | (Return c, w1) =>
            exists g,
              GeminiModel_init kwargs e = (Return g, Env w1 (logs e))
              /\ client g = c
              /\ get_model_details g
                 = {[ "provider" := VStr "gemini";
                      "model_name" := kwarg kwargs "model_name" (VStr "gemini-2.0-flash");
                      "temperature" := kwarg kwargs "temperature" (VFloat 0) ]}
              /\ get_model_details g !! "api_key" = None
        | (Raise x, w1) =>
            GeminiModel_init kwargs e
            = (Raise x,
               logged (Env w1 (logs e)) ERROR
                 ("Failed to initialize Gemini client: " ++ exn_msg x))
        end
    end.
Proof.
  intros kwargs e. unfold GeminiModel_init.
  destruct (kwargs !! "self") as [v|] eqn:Hself.
  - rewrite bool_decide_eq_true_2 by eauto. reflexivity.
  - rewrite bool_decide_eq_false_2 by (intros [v Hv]; discriminate).
    unfold GeminiModel_body, try_except, bind, sdk, zoom.
    destruct (genai_Client _ (world e)) as [[c|x] w1]; simpl; [|reflexivity].
    eexists. split; [reflexivity|]. split; [reflexivity|]. split; [reflexivity|].
    unfold get_model_details.
    rewrite !lookup_insert_ne by discriminate. now apply lookup_singleton_ne.
Qed.

(** X3. An answer of [generate_text] or [send_message] is either the text
    the remote service gave, with the log untouched, or the empty string with
    exactly one error record appended: the log tells a failure from an empty
    answer. *)
Theorem degraded_answers_are_logged :
  (forall self contents e r e',
      generate_text self contents e = (r, e') ->
      (exists cfg response w1 v,
          GenerateContentConfig (temperature self) (world e) = (Return cfg, w1)
          /\ generate_content (client self) (model_name self) contents cfg w1
             = (Return response, world e')
          /\ response_text response = Return v
          /\ r = Return v /\ logs e' = logs e)
      \/ (exists x,
            r = Return (VStr "")
            /\ logs e' = (logs e ++
                 [LogRecord ERROR ("Error generating content with Gemini: " ++ exn_msg x)])%list))
  /\ (forall self message e r e',
        send_message self message e = (r, e') ->
        (exists response v,
            session_send_message (chat_session self) message (world e)
            = (Return response, world e')
            /\ response_text response = Return v
            /\ r = Return v /\ logs e' = logs e)
        \/ (exists x,
              r = Return (VStr "")
              /\ logs e' = (logs e ++
                   [LogRecord ERROR ("Error sending message in Gemini chat: " ++ exn_msg x)])%list)).
Proof.
  split.
  - intros self contents e r e'.
    unfold generate_text, try_except, bind, sdk, zoom, attr.
    destruct (GenerateContentConfig _ (world e)) as [[cfg|x] w1] eqn:Hc; simpl.
    + destruct (generate_content _ _ contents cfg w1) as [[response|x] w2] eqn:Hg; simpl.
      * destruct (response_text response) as [v|x] eqn:Ht; intros [= <- <-]; simpl.
        -- left. exists cfg, response, w1, v. auto.
        -- right. exists x. auto.
      * intros [= <- <-]. right. exists x. auto.
    + intros [= <- <-]. right. exists x. auto.
  - intros self message e r e'.
    unfold send_message, try_except, bind, sdk, zoom, attr.
    destruct (session_send_message _ message (world e)) as [[response|x] w1] eqn:Hs; simpl.
    + destruct (response_text response) as [v|x] eqn:Ht; intros [= <- <-]; simpl.
      * left. exists response, v. auto.
      * right. exists x. auto.
    + intros [= <- <-]. right. exists x. auto.
Qed.

(** Taking [fuel] fragments from a suspended generator whose stream still
    has that many readable chunks: the fragments are the first [fuel] ones,
    nothing is logged, and the stream is left where the rest begins. *)
Lemma consume_prefix response w cs fin w' :
  stream_run response w cs fin w' ->
  forall fuel l, fuel <= length (fragments cs) ->
  exists e',
    consume fuel (GenSuspended response) (Env w l)
    = (Return (take fuel (fragments cs)), GenSuspended response, e', false)
    /\ logs e' = l
    /\ stream_run response (world e') (drop fuel cs) fin w'
    /\ fragments (drop fuel cs) = drop fuel (fragments cs).
Proof.
  induction 1 as [w w' Hn|w w' x Hn|w w1 c cs fin w' Hn Hrun IH]; intros fuel l Hfuel.
  - assert (fuel = 0) as -> by (simpl in Hfuel; lia).
    eexists. split; [reflexivity|]. simpl. split; [reflexivity|].
    split; [now constructor|reflexivity].
  - assert (fuel = 0) as -> by (simpl in Hfuel; lia).
    eexists. split; [reflexivity|]. simpl. split; [reflexivity|].
    split; [now constructor|reflexivity].
  - destruct fuel as [|fuel].
    + eexists. split; [reflexivity|]. simpl. split; [reflexivity|].
      split; [econstructor; eassumption|reflexivity].
    + simpl in Hfuel. cbn [consume generator_next].
      unfold try_except, stream_loop, bind, sdk, zoom, attr. simpl.
      rewrite Hn. simpl.
      destruct (response_text c) as [t|x] eqn:Ht; simpl in *.
      * apply le_S_n in Hfuel.
        destruct (IH fuel l Hfuel) as (e' & Hc & Hl & Hr & Hf).
        rewrite Hc. exists e'. auto.
      * exfalso. exact (Nat.nle_succ_0 _ Hfuel).
Qed.

(** The end of the consumption, with the log. *)
Lemma consume_suspended_log response w cs fin w' :
  stream_run response w cs fin w' ->
  forall fuel l, length (fragments cs) < fuel ->
  exists w'',
    consume fuel (GenSuspended response) (Env w l)
    = (Return (fragments cs), GenClosed, Env w'' (l ++ stream_log cs fin), true).
Proof.
  unfold stream_log.
  induction 1 as [w w' Hn|w w' x Hn|w w1 c cs fin w' Hn Hrun IH];
    intros fuel l Hfuel; (destruct fuel as [|fuel]; [exfalso; exact (Nat.nlt_0_r _ Hfuel)|]).
  - simpl. unfold try_except, stream_loop, bind, sdk, zoom. simpl.
    rewrite Hn. simpl. rewrite app_nil_r. eauto.
  - simpl. unfold try_except, stream_loop, bind, sdk, zoom. simpl.
    rewrite Hn. simpl. eauto.
  - cbn [consume generator_next].
    unfold try_except, stream_loop, bind, sdk, zoom, attr. simpl.
    rewrite Hn. simpl. simpl in Hfuel.
    destruct (response_text c) as [t|x] eqn:Ht; simpl.
    + simpl in Hfuel. apply Nat.succ_lt_mono in Hfuel.
      destruct (IH fuel l Hfuel) as [w'' Hw]. rewrite Hw. eauto.
    + eauto.
Qed.

(** X4. The generator is lazy and resumable.  On a stream that opens and
    has at least [k] readable chunks, taking [k] fragments gives the first
    [k] and leaves the generator suspended, nothing being logged; taking the
    rest later gives exactly the remaining fragments, none lost and none
    repeated. *)
Theorem stream_is_consumed_lazily_and_resumes :
  forall self contents e cfg response w1 w2 cs fin w3 k fuel,
    GenerateContentConfig (temperature self) (world e) = (Return cfg, w1) ->
    generate_content_stream (client self) (model_name self) contents cfg w1
    = (Return response, w2) ->
    stream_run response w2 cs fin w3 ->
    0 < k <= length (fragments cs) ->
    length (fragments cs) - k < fuel ->
    exists e1 e2,
      consume k (generate_text_stream self contents) e
      = (Return (take k (fragments cs)), GenSuspended response, e1, false)
      /\ logs e1 = logs e
      /\ consume fuel (GenSuspended response) e1
         = (Return (drop k (fragments cs)), GenClosed, e2, true).
Proof.
  intros self contents e cfg response w1 w2 cs fin w3 k fuel Hc Hs Hrun [Hk1 Hk2] Hfuel.
  destruct (consume_prefix _ _ _ _ _ Hrun k (logs e) Hk2) as (e1 & Hpre & Hl & Hrest & Hf).
  assert (Hlen : length (fragments (drop k cs)) < fuel).
  { rewrite Hf, length_drop. exact Hfuel. }
  destruct (consume_suspended _ _ _ _ _ Hrest fuel (logs e1) Hlen) as [e2 He2].
  exists e1, e2. split; [|split; [exact Hl|]].
  - rewrite <- Hpre. destruct k as [|k]; [lia|].
    unfold generate_text_stream. cbn [consume].
    now rewrite (generator_next_created _ _ _ _ _ _ _ Hc Hs).
  - rewrite <- Hf, <- He2. now destruct e1.
Qed.

(** X5. What a stream leaves in the log.  A stream that opens, delivers
    its chunks and ends, every chunk being readable, logs nothing; one that
    breaks, or delivers a chunk whose text cannot be read, logs exactly one
    error record, with the message of that exception. *)
Theorem stream_logs_one_error_or_none :
  forall self contents e cfg response w1 w2 cs fin w3 fuel,
    GenerateContentConfig (temperature self) (world e) = (Return cfg, w1) ->
    generate_content_stream (client self) (model_name self) contents cfg w1
    = (Return response, w2) ->
    stream_run response w2 cs fin w3 ->
    length (fragments cs) < fuel ->
    (exists w4,
        consume fuel (generate_text_stream self contents) e
        = (Return (fragments cs), GenClosed, Env w4 (logs e ++ stream_log cs fin), true))
    /\ (stream_failure cs fin = None ->
        stream_log cs fin = [] /\ length (fragments cs) = length cs)
    /\ (forall x, stream_failure cs fin = Some x ->
          stream_log cs fin
          = [LogRecord ERROR ("Error in streaming generation with Gemini: " ++ exn_msg x)]).
Proof.
  intros self contents e cfg response w1 w2 cs fin w3 fuel Hc Hs Hrun Hfuel.
  split; [|split].
  - destruct (consume_suspended_log _ _ _ _ _ Hrun fuel (logs e) Hfuel) as [w4 Hw].
    exists w4. rewrite <- Hw. destruct fuel as [|fuel]; [lia|].
    unfold generate_text_stream. cbn [consume].
    now rewrite (generator_next_created _ _ _ _ _ _ _ Hc Hs).
  - intros Hnone. unfold stream_log. rewrite Hnone. split; [reflexivity|].
    clear -Hnone. induction cs as [|c cs IH]; [reflexivity|].
    simpl in *. destruct (response_text c); [|discriminate].
    simpl. f_equal. auto.
  - intros x Hx. unfold stream_log. now rewrite Hx.
Qed.

(** [create_chat] fails loudly: it raises exactly when the SDK cannot open a
    session, with the SDK's exception, after logging it once; when the SDK
    opens a session the chat returned wraps that session and nothing is
    logged. *)
Lemma create_chat_raises_what_the_sdk_raises :
  forall self e,
    match chats_create (client self) (model_name self) (world e) with
    | (Return s, w1) =>
        create_chat self e = (Return {| chat_session := s |}, Env w1 (logs e))
    | (Raise x, w1) =>
        create_chat self e
        = (Raise x,
           logged (Env w1 (logs e)) ERROR
             ("Error creating chat session with Gemini: " ++ exn_msg x))
    end.
Proof.
  intros self e. unfold create_chat, try_except, bind, sdk, zoom.
  destruct (chats_create _ _ (world e)) as [[s|x] w1]; reflexivity.
Qed.

Lemma parts_all_or_missing (history : list (value * list Part)) :
  Forall (fun m => snd m <> []) history \/ Exists (fun m => snd m = []) history.
Proof.
  induction history as [|[r parts] rest [IH|IH]].
  - left. constructor.
  - destruct parts as [|p ps].
    + right. now constructor.
    + left. constructor; [discriminate|exact IH].
  - right. now constructor 2.
Qed.

(** X6. [get_history] never raises and is all or nothing.  If the session
    cannot deliver its history the result is empty and the error is logged.
    If it can, the result has one turn per message and nothing is logged, or,
    when some message has no part, it is empty and the index error is
    logged: never a partial list. *)
Theorem get_history_is_all_or_nothing :
  forall self e,
    exists turns e',
      get_history self e = (Return turns, e')
      /\ match session_get_history (chat_session self) (world e) with
         | (Return history, w1) =>
             world e' = w1
             /\ ((length turns = length history /\ logs e' = logs e)
                 \/ (turns = []
                     /\ Exists (fun m => snd m = []) history
                     /\ e' = logged (Env w1 (logs e)) ERROR
                               "Error retrieving Gemini chat history: list index out of range"))
         | (Raise x, w1) =>
             turns = []
             /\ e' = logged (Env w1 (logs e)) ERROR
                       ("Error retrieving Gemini chat history: " ++ exn_msg x)
         end.
Proof.
  intros self e. unfold get_history, try_except, bind, sdk, zoom.
  destruct (session_get_history _ (world e)) as [[history|x] w1]; simpl.
  - destruct (parts_all_or_missing history) as [Hall|Hex'].
    + destruct (comprehension_complete history (Env w1 (logs e)) Hall)
        as (turns & Hrun & Hturns).
      rewrite Hrun. exists turns, (Env w1 (logs e)). split; [reflexivity|].
      split; [reflexivity|]. left. split; [|reflexivity].
      symmetry. exact (Forall2_length _ _ _ Hturns).
    + rewrite (comprehension_index_error history (Env w1 (logs e)) Hex').
      eexists _, _. split; [reflexivity|]. split; [reflexivity|]. right. auto.
  - eexists _, _. split; [reflexivity|]. auto.
Qed.

End Facts.

#[local] Existing Instance Scripted.service.
#[local] Existing Instance Fixtures.ascii_text.

(** An answer and a failure. *)
Lemma degraded_answers_witness :
  ((exists cfg response w1 v,
       GenerateContentConfig (Gemini.temperature Scripted.gemini) (world Scripted.quiet)
       = (Return cfg, w1)
       /\ generate_content (Gemini.client Scripted.gemini) (Gemini.model_name Scripted.gemini)
            [Scripted.Text "hi"] cfg w1
          = (Return response, world Scripted.quiet)
       /\ response_text response = Return v
       /\ Return (VStr "hi") = Return v /\ logs Scripted.quiet = logs Scripted.quiet)
   \/ (exists x,
         Return (VStr "hi") = Return (VStr "")
         /\ logs Scripted.quiet
            = (logs Scripted.quiet ++
                 [LogRecord ERROR ("Error generating content with Gemini: " ++ exn_msg x)])%list)).
Proof.
  exact (proj1 (@degraded_answers_are_logged Scripted.service)
           Scripted.gemini [Scripted.Text "hi"] Scripted.quiet
           (Return (VStr "hi")) Scripted.quiet eq_refl).
Defined.

Lemma broken_stream_run :
  stream_run tt Scripted.broken_stream ["Hel"; "lo"] (Failed (Scripted.ServerError "reset"))
    [Scripted.Text "lost"].
Proof.
  apply (@run_chunk Scripted.service tt Scripted.broken_stream
           (tl Scripted.broken_stream) "Hel" ["lo"]); [reflexivity|].
  apply (@run_chunk Scripted.service tt (tl Scripted.broken_stream)
           (tl (tl Scripted.broken_stream)) "lo" []); [reflexivity|].
  apply (@run_failed Scripted.service tt). reflexivity.
Qed.

(** One fragment taken from the broken stream, then the rest. *)
Lemma lazy_stream_witness :
  exists e1 e2,
    consume 1 (generate_text_stream Scripted.gemini Scripted.broken_stream) Scripted.quiet
    = (Return [VStr "Hel"], GenSuspended tt, e1, false)
    /\ logs e1 = []
    /\ consume 2 (GenSuspended tt) e1 = (Return [VStr "lo"], GenClosed, e2, true).
Proof.
  apply (@stream_is_consumed_lazily_and_resumes Scripted.service
           Scripted.gemini Scripted.broken_stream Scripted.quiet (VFloat 0) tt
           (@nil Scripted.reply) Scripted.broken_stream ["Hel"; "lo"]
           (Failed (Scripted.ServerError "reset")) [Scripted.Text "lost"] 1 2).
  - reflexivity.
  - reflexivity.
  - exact broken_stream_run.
  - simpl. lia.
  - simpl. lia.
Defined.

(** The broken stream leaves one error record. *)
Lemma stream_log_witness :
  exists w4,
    consume 3 (generate_text_stream Scripted.gemini Scripted.broken_stream) Scripted.quiet
    = (Return [VStr "Hel"; VStr "lo"], GenClosed,
       Env w4 [LogRecord ERROR "Error in streaming generation with Gemini: reset"], true).
Proof.
  apply (@stream_logs_one_error_or_none Scripted.service
           Scripted.gemini Scripted.broken_stream Scripted.quiet (VFloat 0) tt
           (@nil Scripted.reply) Scripted.broken_stream ["Hel"; "lo"]
           (Failed (Scripted.ServerError "reset")) [Scripted.Text "lost"] 3).
  - reflexivity.
  - reflexivity.
  - exact broken_stream_run.
  - simpl. lia.
Defined.

End GeminiMore.

(** * Further properties of the router *)

Module RouterMore.
Import Router.
Import RouterFacts.
Section Facts.
Context `{GenAI} {openai : OpenAI} {text : Str}.

(** X7. An instance registered under a name is what [get_model(name)]
    returns, the very object, with nothing built and the router untouched,
    after any later calls that do not register the name again; a registration
    replaces an earlier one under the same name. *)
Theorem registered_model_is_returned_by_name :
  forall name model (s : state) cs,
    (forall other, RegisterModel name other ∉ cs) ->
    let s' := run cs (snd (register_model name model s)) in
    get_model (ByName name) s' = (Return model, s').
Proof.
  intros name model s cs Hcs s'.
  rewrite get_model_run. unfold s'.
  rewrite (run_models_unregistered cs _ name Hcs). simpl.
  now rewrite lookup_insert_eq.
Qed.

(** No call removes a class from the registry. *)
Lemma exec_classes_kept c (s : state) p :
  is_Some (model_classes (self s) !! p) ->
  is_Some (model_classes (self (exec c s)) !! p).
Proof.
  intros Hp.
  assert (Hdef : forall (t : state), model_classes (self (snd (get_default_model t)))
                                     = model_classes (self t)).
  { intros t. destruct (get_default_model t) as [r t'] eqn:Hg.
    now apply get_default_model_frame in Hg as (_ & Hm & _). }
  assert (Hcre : forall config (t : state),
             model_classes (self (snd (_create_model_from_config config t)))
             = model_classes (self t)).
  { intros config t. destruct (_create_model_from_config config t) as [r t'] eqn:Hg.
    apply create_frame in Hg as (Hself & _). simpl. now rewrite Hself. }
  destruct c as [name model|provider k0|arg| |task req|config]; simpl;
    rewrite ?Hdef, ?Hcre; auto.
  - rewrite lookup_insert_is_Some. destruct (decide (provider = p)); auto.
  - rewrite get_model_run. destruct arg as [name|config|rendering];
      rewrite ?Hdef, ?Hcre; auto.
    destruct (models (self s) !! name); rewrite ?Hdef; auto.
  - destruct req as [r|]; simpl; rewrite ?Hdef; auto.
    destruct (truthy r); rewrite ?Hdef, ?Hcre; auto.
Qed.

Lemma run_classes_kept cs (s : state) p :
  is_Some (model_classes (self s) !! p) ->
  is_Some (model_classes (self (run cs s)) !! p).
Proof.
  revert s. induction cs as [|c cs IH]; intros s Hp; [exact Hp|].
  change (run (c :: cs) s) with (run cs (exec c s)).
  apply IH. now apply exec_classes_kept.
Qed.

Lemma resolve_provider_registered config (s : state) p s1 :
  is_Some (model_classes (self s) !! "openai") ->
  resolve_provider config s = (Return p, s1) ->
  is_Some (model_classes (self s1) !! p).
Proof.
  intros Hopenai Hr.
  pose proof (resolve_provider_frame _ _ _ _ Hr) as (Hself & _). rewrite Hself.
  revert Hr. unfold resolve_provider.
  unfold bind, ret, raise, try_except, get, modify, zoom, attr.
  destruct (provider_of config s) as [[p0|x] s0] eqn:Hp; [|discriminate].
  apply provider_of_frame in Hp as ->.
  case_bool_decide as Hknown; simpl.
  - destruct (bool_decide (p0 = "gemini") && _); simpl; now intros [= <- _].
  - now intros [= <- _].
Qed.

(** X8. In every state a router reaches, the classes for "openai" and
    "gemini" are registered, and the provider a configuration resolves to is
    always a key of the registry: the look-up of the class in the [try] block
    never fails, and the constructor called is the registered one, on the
    configuration without its provider key. *)
Theorem resolved_provider_is_registered :
  forall e n dcfg cs config p s1,
    let s := run cs (boot e n dcfg) in
    resolve_provider config s = (Return p, s1) ->
    is_Some (model_classes (self s) !! "openai")
    /\ is_Some (model_classes (self s) !! "gemini")
    /\ exists k,
         model_classes (self s1) !! p = Some k
         /\ construct p config s1 = call_class k (delete "provider" config) s1.
Proof.
  intros e n dcfg cs config p s1 s Hr.
  assert (Hopenai : is_Some (model_classes (self s) !! "openai")).
  { apply run_classes_kept. simpl. rewrite lookup_insert_eq. eauto. }
  assert (Hgemini : is_Some (model_classes (self s) !! "gemini")).
  { apply run_classes_kept. simpl. rewrite lookup_insert_ne by discriminate.
    rewrite lookup_singleton_eq. eauto. }
  split; [exact Hopenai|]. split; [exact Hgemini|].
  destruct (resolve_provider_registered config s p s1 Hopenai Hr) as [k Hk].
  exists k. split; [exact Hk|]. now apply construct_registered.
Qed.

Lemma construct_calls p config (s : state) r s' :
  construct p config s = (r, s') ->
  constructions s' = constructions s
  \/ exists name, constructions s'
                  = (constructions s ++ [(name, delete "provider" config)])%list.
Proof.
  unfold construct. unfold bind, ret, raise, get.
  destruct (model_classes (self s) !! p) as [k|].
  - intros Hc. apply call_class_frame in Hc as (_ & Hcalls & _). eauto.
  - intros [= _ <-]. auto.
Qed.

(** X9. [_create_model_from_config] calls at most two constructors, the
    resolved one and the fallback, and neither is ever given the provider
    key: the resolved constructor gets the configuration without it, the
    fallback gets the model name "gpt-4" alone. *)
Theorem constructors_never_see_the_provider_key :
  forall config (s : state) r s',
    _create_model_from_config config s = (r, s') ->
    exists calls,
      constructions s' = (constructions s ++ calls)%list
      /\ length calls <= 2
      /\ Forall (fun call => snd call !! "provider" = None) calls
      /\ Forall (fun call => snd call = delete "provider" config
                             \/ snd call = gpt4_kwargs) calls.
Proof.
  intros config s r s'. rewrite create_run.
  assert (Hgpt : gpt4_kwargs !! "provider" = None) by reflexivity.
  assert (Hdel : delete "provider" config !! "provider" = None)
    by apply lookup_delete_eq.
  assert (Hfb : forall p e (t : state) r s',
             fallback p e t = (r, s') ->
             constructions s' = (constructions t ++ [(cls_name OpenAIModel, gpt4_kwargs)])%list).
  { intros p e t r0 s0. rewrite fallback_run.
    destruct (call_class _ _ _) as [[m|y] s3] eqn:Hf;
      apply call_class_frame in Hf as (_ & Hf & _); now intros [= _ <-]. }
  destruct (resolve_provider config s) as [[p|x] s1] eqn:Hr;
    apply resolve_provider_frame in Hr as (_ & _ & Hcalls & _).
  - destruct (construct p config s1) as [[m|e] s2] eqn:Hc;
      apply construct_calls in Hc as [Hc|[name Hc]]; rewrite Hcalls in Hc.
    + intros [= <- <-]. exists []. rewrite app_nil_r.
      split; [exact Hc|]. split; [simpl; lia|]. split; constructor.
    + intros [= <- <-]. exists [(name, delete "provider" config)].
      split; [exact Hc|]. split; [simpl; lia|].
      split; (constructor; [simpl; auto|constructor]).
    + intros Hf. apply Hfb in Hf. rewrite Hc in Hf.
      exists [(cls_name OpenAIModel, gpt4_kwargs)].
      split; [exact Hf|]. split; [simpl; lia|].
      split; (constructor; [simpl; auto|constructor]).
    + intros Hf. apply Hfb in Hf. rewrite Hc, <- app_assoc in Hf.
      exists [(name, delete "provider" config); (cls_name OpenAIModel, gpt4_kwargs)].
      split; [exact Hf|]. split; [simpl; lia|].
      split; (constructor; [simpl; auto|constructor; [simpl; auto|constructor]]).
  - intros [= <- <-]. exists []. rewrite app_nil_r.
    split; [exact Hcalls|]. split; [simpl; lia|]. split; constructor.
Qed.

Lemma ascii_lower_idempotent c : ascii_lower (ascii_lower c) = ascii_lower c.
Proof. destruct c as [[] [] [] [] [] [] [] []]; reflexivity. Qed.

Lemma ascii_lower_stays_ascii c :
  (N_of_ascii c <? 128)%N = true -> (N_of_ascii (ascii_lower c) <? 128)%N = true.
Proof. destruct c as [[] [] [] [] [] [] [] []]; intros Hc; (reflexivity || discriminate Hc). Qed.

Lemma lower_idempotent q : lower (lower q) = lower q.
Proof.
  induction q as [|c r IH]; [reflexivity|].
  simpl. now rewrite ascii_lower_idempotent, IH.
Qed.

Lemma lower_stays_ascii q : is_ascii q = true -> is_ascii (lower q) = true.
Proof.
  induction q as [|c r IH]; [reflexivity|].
  simpl. intros Hq. apply andb_true_iff in Hq as [Hc Hr].
  apply andb_true_iff. split; [now apply ascii_lower_stays_ascii|now apply IH].
Qed.

(** X10. Provider names are matched through [str.lower] only: two
    configurations that differ only in provider strings with the same
    lower-case form behave the same, result, log and constructor calls
    alike.  On ASCII text this is matching without regard to letter case: a
    provider written in any mix of upper and lower case behaves as its
    lower-case spelling. *)
Theorem provider_is_case_insensitive :
  (forall p q config (s : state),
      str_lower p = str_lower q ->
      _create_model_from_config (<["provider" := VStr p]> config) s
      = _create_model_from_config (<["provider" := VStr q]> config) s)
  /\ (forall p q config (s : state),
        is_ascii p = true -> is_ascii q = true -> lower p = lower q ->
        _create_model_from_config (<["provider" := VStr p]> config) s
        = _create_model_from_config (<["provider" := VStr q]> config) s)
  /\ (forall p config (s : state),
        is_ascii p = true ->
        _create_model_from_config (<["provider" := VStr p]> config) s
        = _create_model_from_config (<["provider" := VStr (lower p)]> config) s).
Proof.
  assert (Hsame : forall p q config (s : state),
             str_lower p = str_lower q ->
             _create_model_from_config (<["provider" := VStr p]> config) s
             = _create_model_from_config (<["provider" := VStr q]> config) s).
  { intros p q config s Hlow.
    unfold _create_model_from_config, resolve_provider, provider_of, construct.
    rewrite !lookup_insert_eq. simpl.
    rewrite !lookup_insert_ne by discriminate.
    rewrite !delete_insert_eq. now rewrite Hlow. }
  split; [exact Hsame|]. split.
  - intros p q config s Hp Hq Hlow. apply Hsame.
    now rewrite (str_lower_ascii p Hp), (str_lower_ascii q Hq).
  - intros p config s Hp. apply Hsame.
    rewrite (str_lower_ascii p Hp), (str_lower_ascii (lower p) (lower_stays_ascii p Hp)).
    now rewrite lower_idempotent.
Qed.

(** X11. A configuration without a provider key is treated as one with
    provider "openai". *)
Theorem missing_provider_means_openai :
  forall config (s : state),
    config !! "provider" = None ->
    _create_model_from_config config s
    = _create_model_from_config (<["provider" := VStr "openai"]> config) s.
Proof.
  intros config s Hnone.
  unfold _create_model_from_config, resolve_provider, provider_of, construct.
  rewrite lookup_insert_eq, Hnone. simpl.
  rewrite !lookup_insert_ne by discriminate.
  rewrite delete_insert_eq. reflexivity.
Qed.

(** X12. A Gemini configuration without an API key is not refused: the
    missing key is logged as an error and the registered Gemini constructor
    is called all the same, with the fallback behind it.  With a key, nothing
    is logged before the call. *)
Theorem gemini_without_key_is_still_constructed :
  forall config (s : state) p k,
    config !! "provider" = Some (VStr p) ->
    str_lower p = "gemini" ->
    model_classes (self s) !! "gemini" = Some k ->
    (config !! "api_key" = None ->
     _create_model_from_config config s
     = try_except (call_class k (delete "provider" config)) (fallback "gemini")
         (logged s ERROR "API key must be provided for gemini provider."))
    /\ (is_Some (config !! "api_key") ->
        _create_model_from_config config s
        = try_except (call_class k (delete "provider" config)) (fallback "gemini") s).
Proof.
  intros config s p k Hp Hlow Hk.
  assert (Hres : forall b,
             bool_decide (is_Some (config !! "api_key")) = b ->
             _create_model_from_config config s
             = try_except (call_class k (delete "provider" config)) (fallback "gemini")
                 (if b then s
                  else logged s ERROR "API key must be provided for gemini provider.")).
  { intros b Hb.
    unfold _create_model_from_config, resolve_provider, provider_of, construct.
    rewrite Hp. unfold bind, ret, raise, try_except, get, modify, zoom, attr. simpl.
    rewrite Hlow, Hk. rewrite bool_decide_eq_true_2 by eauto. simpl.
    rewrite Hb. destruct b; simpl; rewrite Hk; [now destruct s|reflexivity]. }
  split.
  - intros Hnone. apply (Hres false). apply bool_decide_eq_false_2.
    rewrite Hnone. now intros [v Hv].
  - intros Hsome. apply (Hres true). now apply bool_decide_eq_true_2.
Qed.

(** X13. A failure to build the default model is not remembered: when
    [get_default_model] raises, no default is cached, and the next call tries
    the construction again from the same default configuration. *)
Theorem failed_default_is_not_cached :
  forall (s : state) x s',
    get_default_model s = (Raise x, s') ->
    default_model (self s') = None
    /\ default_model_config (self s') = default_model_config (self s)
    /\ get_default_model s'
       = match _create_model_from_config (default_model_config (self s)) s' with
         | (Return m, s1) => (Return m, set_default_model m s1)
         | (Raise y, s1) => (Raise y, s1)
         end.
Proof.
  intros s x s' Hg.
  apply get_default_model_frame in Hg as (_ & _ & Hcfg & Hnone & _).
  split; [exact Hnone|]. split; [exact Hcfg|].
  now rewrite get_default_model_run, Hnone, Hcfg.
Qed.

Lemma create_keeps_default_older config (s : state) :
  default_is_older s -> default_is_older (snd (_create_model_from_config config s)).
Proof.
  intros Hinv d. destruct (_create_model_from_config config s) as [r s'] eqn:Hc.
  apply create_frame in Hc as (Hself & Hid). simpl. rewrite Hself. intros Hd.
  specialize (Hinv d Hd). destruct r as [m|x]; [destruct Hid as [_ Hid]|];
    rewrite Hid; lia.
Qed.

Lemma get_default_model_keeps_default_older (s : state) :
  default_is_older s -> default_is_older (snd (get_default_model s)).
Proof.
  intros Hinv. rewrite get_default_model_run.
  destruct (default_model (self s)) as [d0|] eqn:Hd0; [exact Hinv|].
  destruct (_create_model_from_config _ s) as [[m|x] s1] eqn:Hc.
  - apply create_frame in Hc as (_ & Hid & Hnext).
    intros d. simpl. intros [= <-]. rewrite Hid, Hnext. lia.
  - pose proof (create_keeps_default_older (default_model_config (self s)) s Hinv) as Hk.
    now rewrite Hc in Hk.
Qed.

Lemma exec_keeps_default_older c (s : state) :
  default_is_older s -> default_is_older (exec c s).
Proof.
  intros Hinv.
  assert (Hlog : forall l m, default_is_older (logged s l m)) by (intros l m; exact Hinv).
  destruct c as [name model|provider k0|arg| |task req|config]; simpl.
  - exact Hinv.
  - exact Hinv.
  - rewrite get_model_run. destruct arg as [name|config|rendering].
    + destruct (models (self s) !! name); [exact Hinv|].
      now apply get_default_model_keeps_default_older.
    + now apply create_keeps_default_older.
    + now apply get_default_model_keeps_default_older.
  - now apply get_default_model_keeps_default_older.
  - destruct req as [r|]; simpl.
    + destruct (truthy r).
      * now apply create_keeps_default_older.
      * now apply get_default_model_keeps_default_older.
    + now apply get_default_model_keeps_default_older.
  - now apply create_keeps_default_older.
Qed.

Lemma run_keeps_default_older cs (s : state) :
  default_is_older s -> default_is_older (run cs s).
Proof.
  revert s. induction cs as [|c cs IH]; intros s Hinv; [exact Hinv|].
  change (run (c :: cs) s) with (run cs (exec c s)).
  apply IH. now apply exec_keeps_default_older.
Qed.

(** X14. In every state a router reaches, the instance
    [select_model_for_task] builds for non-empty requirements is never the
    cached default model, and the default stays what it was: a call of
    [get_default_model] afterwards still returns the old default. *)
Theorem built_instance_is_not_the_default :
  forall e n dcfg cs task r m s' d,
    let s := run cs (boot e n dcfg) in
    r <> ∅ ->
    select_model_for_task task (Some r) s = (Return m, s') ->
    default_model (self s) = Some d ->
    obj_id m <> obj_id d
    /\ get_default_model s' = (Return d, s').
Proof.
  intros e n dcfg cs task r m s' d s Hr Hsel Hd.
  assert (Hinv : default_is_older s).
  { apply run_keeps_default_older. intros d0. simpl. discriminate. }
  apply truthy_nonempty in Hr. unfold select_model_for_task in Hsel.
  rewrite Hr in Hsel. apply create_frame in Hsel as (Hself & Hid & _).
  split.
  - specialize (Hinv d Hd). lia.
  - rewrite get_default_model_run, Hself. now rewrite Hd.
Qed.

(** X15. A class registered under the lower-case form of a name, as
    [str.lower] gives it, is found by a configuration whose provider is that
    name: the registered constructor is the one called, on the configuration
    without its provider key, with the fallback behind it. *)
Theorem lower_case_registration_is_found_in_any_case :
  forall q K kwargs (s : state),
    let s' := snd (register_model_class (str_lower q) K s) in
    model_classes (self s') !! str_lower q = Some K
    /\ exists s1,
         self s1 = self s'
         /\ _create_model_from_config (<["provider" := VStr q]> kwargs) s'
            = try_except (call_class K (delete "provider" kwargs))
                (fallback (str_lower q)) s1.
Proof.
  intros q K kwargs s s'.
  assert (HK : model_classes (self s') !! str_lower q = Some K) by apply lookup_insert_eq.
  split; [exact HK|].
  destruct (resolve_registered (<["provider" := VStr q]> kwargs) s' q K)
    as (s1 & _ & Hself & Hrun); [apply lookup_insert_eq|exact HK|].
  exists s1. split; [exact Hself|]. rewrite Hrun. now rewrite delete_insert_eq.
Qed.

(** X18. What [_create_model_from_config] returns is an instance of the
    class registered for the resolved provider, built by that class from the
    configuration without its provider key, or else, when that construction
    raised, an instance of [OpenAIModel]: never anything else. *)
Theorem created_instance_is_of_the_resolved_class_or_openai :
  forall config (s : state) m s',
    _create_model_from_config config s = (Return m, s') ->
    exists p s1,
      resolve_provider config s = (Return p, s1)
      /\ ((exists k,
              model_classes (self s) !! p = Some k
              /\ call_class k (delete "provider" config) s1 = (Return m, s')
              /\ obj_type m = cls_name k)
          \/ (raises (fst (construct p config s1)) = true
              /\ obj_type m = cls_name OpenAIModel)).
Proof.
  intros config s m s' Hcre. rewrite create_run in Hcre.
  destruct (resolve_provider config s) as [[p|x] s1] eqn:Hr; [|discriminate].
  pose proof (resolve_provider_frame _ _ _ _ Hr) as (Hself & _).
  exists p, s1. split; [reflexivity|].
  destruct (construct p config s1) as [[m0|e0] s2] eqn:Hc.
  - injection Hcre as -> ->. left.
    unfold construct in Hc. unfold bind, get, raise in Hc. rewrite Hself in Hc.
    destruct (model_classes (self s) !! p) as [k|]; [|discriminate].
    exists k. split; [reflexivity|]. split; [exact Hc|].
    rewrite call_class_run in Hc.
    destruct (cls_init k _ (proc s1)) as [[pl|y] e1]; [|discriminate].
    now injection Hc as <- _.
  - right. split; [reflexivity|].
    rewrite fallback_run, call_class_run in Hcre.
    destruct (cls_init OpenAIModel _ _) as [[pl|y] e1]; [|discriminate].
    now injection Hcre as <- _.
Qed.

Lemma exec_config_kept c (s : state) :
  default_model_config (self (exec c s)) = default_model_config (self s).
Proof.
  assert (Hdef : forall (t : state), default_model_config (self (snd (get_default_model t)))
                                     = default_model_config (self t)).
  { intros t. destruct (get_default_model t) as [r t'] eqn:Hg.
    now apply get_default_model_frame in Hg as (_ & _ & Hm & _). }
  assert (Hcre : forall config (t : state),
             default_model_config (self (snd (_create_model_from_config config t)))
             = default_model_config (self t)).
  { intros config t. destruct (_create_model_from_config config t) as [r t'] eqn:Hg.
    apply create_frame in Hg as (Hself & _). simpl. now rewrite Hself. }
  destruct c as [name model|provider k0|arg| |task req|config]; simpl;
    rewrite ?Hdef, ?Hcre; auto.
  - rewrite get_model_run. destruct arg as [name|config|rendering];
      rewrite ?Hdef, ?Hcre; auto.
    destruct (models (self s) !! name); rewrite ?Hdef; auto.
  - destruct req as [r|]; simpl; rewrite ?Hdef; auto.
    destruct (truthy r); rewrite ?Hdef, ?Hcre; auto.
Qed.

(** X19. The default configuration of a router is set once, by the
    constructor, and no operation changes it.  It is the configuration given,
    or the built-in one (provider openai, model gpt-4, temperature 0.0) when
    none or an empty one was given: it is never empty. *)
Theorem default_configuration_is_fixed :
  forall e n dcfg cs,
    default_model_config (self (run cs (boot e n dcfg)))
    = default_model_config (ModelRouter_init dcfg)
    /\ default_model_config (self (run cs (boot e n dcfg))) <> ∅
    /\ default_model_config (self (run cs (boot e n None))) = default_config
    /\ default_model_config (self (run cs (boot e n (Some ∅)))) = default_config.
Proof.
  assert (Hrun : forall cs (s : state),
             default_model_config (self (run cs s)) = default_model_config (self s)).
  { induction cs as [|c cs IH]; intros s; [reflexivity|].
    change (run (c :: cs) s) with (run cs (exec c s)).
    now rewrite IH, exec_config_kept. }
  intros e n dcfg cs. rewrite !Hrun. split; [reflexivity|].
  split; [|split; reflexivity].
  assert (Hdefault : default_config <> ∅).
  { intros Heq. discriminate (f_equal (lookup "provider") Heq). }
  simpl. destruct dcfg as [c|]; [|exact Hdefault].
  destruct (truthy c) eqn:Ht; [|exact Hdefault].
  now apply truthy_nonempty.
Qed.

End Facts.

#[local] Existing Instance Scripted.service.
#[local] Existing Instance Fixtures.ascii_text.

(** "chat9" registered, then a history that registers another name. *)
Lemma registered_model_witness :
  get_model (openai := Fixtures.up) (ByName "chat9")
    (run (openai := Fixtures.up) Fixtures.history
       (snd (register_model "chat9" Fixtures.chat9 Fixtures.fresh)))
  = (Return Fixtures.chat9,
     run (openai := Fixtures.up) Fixtures.history
       (snd (register_model "chat9" Fixtures.chat9 Fixtures.fresh))).
Proof.
  refine (registered_model_is_returned_by_name (openai := Fixtures.up) (text := Fixtures.ascii_text)
            "chat9" Fixtures.chat9 Fixtures.fresh Fixtures.history _).
  intros other Hin.
  apply elem_of_cons in Hin as [Hin|Hin]; [discriminate Hin|].
  apply elem_of_cons in Hin as [Hin|Hin]; [discriminate Hin|].
  inversion Hin.
Defined.

(** An unknown provider after a history: it resolves to "openai", which is
    registered. *)
Lemma resolved_provider_witness :
  exists k,
    model_classes
      (self (snd (resolve_provider Fixtures.anthropic
                    (run (openai := Fixtures.up) Fixtures.history Fixtures.fresh))))
    !! "openai" = Some k.
Proof.
  destruct (resolve_provider Fixtures.anthropic
              (run (openai := Fixtures.up) Fixtures.history Fixtures.fresh))
    as [r s1] eqn:Hr.
  assert (Hfst : r = Return "openai").
  { change r with (fst (r, s1)). rewrite <- Hr. vm_compute. reflexivity. }
  subst r.
  destruct (resolved_provider_is_registered (openai := Fixtures.up)
              (text := Fixtures.ascii_text)
              Scripted.quiet 0 None Fixtures.history Fixtures.anthropic "openai" s1 Hr)
    as (_ & _ & k & Hk & _).
  exists k. exact Hk.
Defined.

(** Gemini without a key on a new router: two calls, neither with the
    provider key. *)
Lemma constructor_calls_witness :
  exists calls,
    constructions
      (snd (_create_model_from_config (openai := Fixtures.up)
              Fixtures.gemini_without_key Fixtures.fresh))
    = (constructions Fixtures.fresh ++ calls)%list
    /\ length calls <= 2
    /\ Forall (fun call => snd call !! "provider" = None) calls.
Proof.
  destruct (_create_model_from_config (openai := Fixtures.up)
              Fixtures.gemini_without_key Fixtures.fresh) as [r s'] eqn:Hc.
  destruct (constructors_never_see_the_provider_key (openai := Fixtures.up)
              (text := Fixtures.ascii_text)
              Fixtures.gemini_without_key Fixtures.fresh r s' Hc)
    as (calls & Hcalls & Hlen & Hnone & _).
  exists calls. auto.
Defined.

(** "GEMINI" and "Gemini". *)
Lemma case_insensitive_witness :
  _create_model_from_config (openai := Fixtures.up)
    (<["provider" := VStr "GEMINI"]> {[ "api_key" := VStr "k" ]}) Fixtures.fresh
  = _create_model_from_config (openai := Fixtures.up)
      (<["provider" := VStr "Gemini"]> {[ "api_key" := VStr "k" ]}) Fixtures.fresh.
Proof.
  destruct (provider_is_case_insensitive (openai := Fixtures.up) (text := Fixtures.ascii_text))
    as (_ & Hascii & _).
  apply Hascii; reflexivity.
Defined.

(** A configuration that only names the model. *)
Lemma missing_provider_witness :
  _create_model_from_config (openai := Fixtures.up)
    {[ "model_name" := VStr "gpt-4o" ]} Fixtures.fresh
  = _create_model_from_config (openai := Fixtures.up)
      (<["provider" := VStr "openai"]> {[ "model_name" := VStr "gpt-4o" ]}) Fixtures.fresh.
Proof.
  apply (missing_provider_means_openai (openai := Fixtures.up) (text := Fixtures.ascii_text)). reflexivity.
Defined.

(** Gemini without a key on a new router. *)
Lemma gemini_without_key_witness :
  _create_model_from_config (openai := Fixtures.up) Fixtures.gemini_without_key Fixtures.fresh
  = try_except (call_class GeminiModel (delete "provider" Fixtures.gemini_without_key))
      (fallback (openai := Fixtures.up) "gemini")
      (logged Fixtures.fresh ERROR "API key must be provided for gemini provider.").
Proof.
  refine (proj1 (gemini_without_key_is_still_constructed (openai := Fixtures.up) (text := Fixtures.ascii_text)
                   Fixtures.gemini_without_key Fixtures.fresh "gemini" GeminiModel
                   ltac:(vm_compute; reflexivity) ltac:(vm_compute; reflexivity) ltac:(vm_compute; reflexivity)) ltac:(vm_compute; reflexivity)).
Defined.

(** Where [OpenAIModel] cannot be built, the default is asked for in
    vain, and nothing is cached. *)
Lemma failed_default_witness :
  default_model
    (self (snd (get_default_model (openai := Fixtures.down) Fixtures.orphan))) = None.
Proof.
  destruct (get_default_model (openai := Fixtures.down) Fixtures.orphan) as [r s'] eqn:Hg.
  assert (Hfst : r = Raise (ValueError
                              "Failed to create model: The api_key client option must be set")).
  { change r with (fst (r, s')). rewrite <- Hg. vm_compute. reflexivity. }
  subst r.
  exact (proj1 (failed_default_is_not_cached (openai := Fixtures.down)
                  (text := Fixtures.ascii_text) Fixtures.orphan _ s' Hg)).
Defined.

(** Gemini without a key on a new router: the instance is the fallback's. *)
Lemma created_instance_witness :
  exists m p,
    fst (_create_model_from_config (openai := Fixtures.up)
           Fixtures.gemini_without_key Fixtures.fresh) = Return m
    /\ fst (resolve_provider Fixtures.gemini_without_key Fixtures.fresh) = Return p
    /\ obj_type m = "OpenAIModel".
Proof.
  destruct (_create_model_from_config (openai := Fixtures.up)
              Fixtures.gemini_without_key Fixtures.fresh) as [r s'] eqn:Hc.
  assert (Hfst : r = Return {| obj_id := 0; obj_type := "OpenAIModel";
                               obj_state := Attributes gpt4_kwargs |}).
  { change r with (fst (r, s')). rewrite <- Hc. vm_compute. reflexivity. }
  subst r.
  destruct (created_instance_is_of_the_resolved_class_or_openai (openai := Fixtures.up)
              (text := Fixtures.ascii_text)
              Fixtures.gemini_without_key Fixtures.fresh _ s' Hc) as (p & s1 & Hr & _).
  eexists _, p. split; [reflexivity|]. split; [now rewrite Hr|reflexivity].
Defined.

(** After the default was built, a model is selected for requirements. *)
Lemma built_instance_witness :
  exists m s' d,
    select_model_for_task (openai := Fixtures.up) "translate"
      (Some Fixtures.gemini_upper) Fixtures.warmed_up = (Return m, s')
    /\ default_model (self Fixtures.warmed_up) = Some d
    /\ obj_id m <> obj_id d
    /\ get_default_model (openai := Fixtures.up) s' = (Return d, s').
Proof.
  assert (Hne : Fixtures.gemini_upper <> ∅).
  { intros Heq. discriminate (f_equal (lookup "provider") Heq). }
  destruct (select_model_for_task (openai := Fixtures.up) "translate"
              (Some Fixtures.gemini_upper) Fixtures.warmed_up) as [r s'] eqn:Hsel.
  assert (Hfst : exists m, r = Return m).
  { change r with (fst (r, s')). rewrite <- Hsel. vm_compute. eexists. reflexivity. }
  destruct Hfst as [m ->].
  assert (Hd : exists d, default_model (self Fixtures.warmed_up) = Some d).
  { vm_compute. eexists. reflexivity. }
  destruct Hd as [d Hd].
  exists m, s', d. split; [reflexivity|]. split; [exact Hd|].
  exact (built_instance_is_not_the_default (openai := Fixtures.up)
           (text := Fixtures.ascii_text)
           Scripted.quiet 0 None [GetDefaultModel] "translate" Fixtures.gemini_upper
           m s' d Hne Hsel Hd).
Defined.

End RouterMore.

(** * Properties of list_available_models *)

Module ListingFacts.
Import Router.
Import RouterFacts.
Section Facts.
Context `{GenAI} {openai : OpenAI} {introspection : Introspection}.

(** The keys of [d.items()] are keys of the order, in that order. *)
Lemma items_keys {V} (d : gmap string V) order :
  NoDup order -> NoDup (map fst (items d order)).
Proof.
  induction order as [|k order IH]; intros Hnd; [constructor|].
  apply NoDup_cons in Hnd as [Hk Hnd]. unfold items in *. simpl.
  destruct (d !! k) as [v|]; simpl; [|auto].
  apply NoDup_cons. split; [|auto].
  intros Hin. apply Hk. clear -Hin.
  induction order as [|k' order IH]; simpl in Hin; [inversion Hin|].
  destruct (d !! k') as [v'|]; simpl in Hin.
  - apply elem_of_cons in Hin as [->|Hin]; [left|right; auto].
  - right. auto.
Qed.

Lemma items_lookup {V} (d : gmap string V) order k v :
  (k, v) ∈ items d order <-> k ∈ order /\ d !! k = Some v.
Proof.
  unfold items. rewrite list_elem_of_omap. split.
  - intros (k' & Hin & Hk). destruct (d !! k') as [v'|] eqn:Hd; [|discriminate].
    simpl in Hk. injection Hk as <- <-. auto.
  - intros [Hin Hd]. exists k. split; [exact Hin|]. now rewrite Hd.
Qed.

(** The first loop appends one entry per instance, in order, and touches
    nothing of the router. *)
Lemma describe_models_run its acc (s : state) out s' :
  describe_models its acc s = (Return out, s') ->
  self s' = self s
  /\ constructions s' = constructions s
  /\ next_id s' = next_id s
  /\ exists infos, out = (acc ++ infos)%list /\ Forall2 describes its infos.
Proof.
  revert acc s. induction its as [|[name model] rest IH]; intros acc s.
  - intros [= <- <-]. repeat split. exists []. split; [now rewrite app_nil_r|constructor].
  - cbn [describe_models]. unfold bind, attr, zoom.
    destruct (model_name_of model) as [mn|x] eqn:Hmn; [|discriminate].
    destruct (details_of model (proc s)) as [[details|x] e1] eqn:Hd; [|discriminate].
    intros Hrest. apply IH in Hrest as (Hself & Hcalls & Hid & infos & -> & Hall).
    repeat split; auto.
    exists (Info name (obj_type model) (Some mn) details :: infos).
    split; [now rewrite <- app_assoc|].
    constructor; [|exact Hall]. unfold describes. simpl.
    split; [reflexivity|]. split; [reflexivity|]. split; [now rewrite Hmn|].
    split; [eauto|].
    intros g Hg. unfold details_of in Hd. rewrite Hg in Hd. now injection Hd as <- _.
Qed.

Lemma reports_bare p q k : reports p (bare q k) = bool_decide (q = p).
Proof. unfold reports, bare. simpl. now rewrite lookup_singleton_eq. Qed.

(** The second loop: although it tests against the growing list, a class is
    listed exactly when no entry of the list it started from reports its
    key, because the keys are distinct. *)
Lemma describe_providers_run its acc :
  NoDup (map fst its) ->
  describe_providers its acc
  = (acc ++ map (fun it => bare (fst it) (snd it))
              (List.filter (fun it => negb (existsb (reports (fst it)) acc)) its))%list.
Proof.
  revert acc. induction its as [|[p k] rest IH]; intros acc Hnd.
  - simpl. now rewrite app_nil_r.
  - simpl in Hnd. apply NoDup_cons in Hnd as [Hp Hnd]. cbn [describe_providers List.filter fst snd].
    destruct (existsb (reports p) acc) eqn:Hrep; simpl.
    + now apply IH.
    + rewrite (IH _ Hnd), <- app_assoc. simpl. do 3 f_equal.
      apply List.filter_ext_in. intros [q kq] Hin. simpl.
      rewrite existsb_app. simpl. rewrite reports_bare, orb_false_r.
      rewrite bool_decide_eq_false_2; [now rewrite orb_false_r|].
      intros ->. apply Hp. apply list_elem_of_In.
      now apply (in_map fst) in Hin.
Qed.

Lemma filter_keys_NoDup {V} (f : string * V -> bool) (its : list (string * V)) :
  NoDup (map fst its) -> NoDup (map fst (List.filter f its)).
Proof.
  induction its as [|it rest IH]; intros Hnd; [constructor|].
  simpl in Hnd. apply NoDup_cons in Hnd as [Hit Hnd]. simpl.
  destruct (f it); simpl; [|auto].
  apply NoDup_cons. split; [|auto].
  intros Hin. apply Hit. apply list_elem_of_In in Hin. apply list_elem_of_In.
  apply in_map_iff in Hin as (it' & Heq & Hin). apply List.filter_In in Hin as [Hin _].
  rewrite <- Heq. now apply in_map.
Qed.

(** X16. [list_available_models] lists the registered instances first, one
    entry each in iteration order with the name it was registered under, the
    name of its class, its model name and the details its
    [get_model_details()] returned, then the registered classes, without
    changing the router or building anything.  A class is listed, once,
    exactly when no instance reports its key as provider in its details: no
    provider appears both through an instance and as a bare entry, and no
    bare entry appears twice.  In particular, with a [GeminiModel] among the
    registered instances there is no bare entry "gemini". *)
Theorem list_available_models_lists_each_provider_once :
  forall names providers (s : state) out s',
    NoDup providers ->
    list_available_models names providers s = (Return out, s') ->
    self s' = self s
    /\ constructions s' = constructions s
    /\ exists infos bares,
         out = (infos ++ bares)%list
         /\ Forall2 describes (items (models (self s)) names) infos
         /\ NoDup (map info_name bares)
         /\ (forall b, b ∈ bares ->
                info_model_name b = None
                /\ existsb (reports (info_name b)) infos = false
                /\ exists k, model_classes (self s) !! info_name b = Some k
                             /\ b = bare (info_name b) k)
         /\ (forall p k, p ∈ providers -> model_classes (self s) !! p = Some k ->
                existsb (reports p) infos = true \/ bare p k ∈ bares)
         /\ (forall name model g,
                name ∈ names -> models (self s) !! name = Some model ->
                obj_state model = GeminiState g ->
                forall b, b ∈ bares -> info_name b <> "gemini").
Proof.
  intros names providers s out s' Hnd.
  unfold list_available_models. unfold bind at 1. unfold get at 1.
  unfold bind at 1.
  destruct (describe_models (items (models (self s)) names) [] s) as [[infos|x] s1] eqn:Hm;
    [|discriminate].
  apply describe_models_run in Hm as (Hself & Hcalls & _ & infos' & Hinfos & Hall).
  simpl in Hinfos. subst infos'.
  unfold bind, get, ret. intros [= <- <-]. rewrite Hself.
  split; [reflexivity|]. split; [exact Hcalls|].
  set (its := items (model_classes (self s)) providers).
  assert (Hkeys : NoDup (map fst its)) by now apply items_keys.
  rewrite (describe_providers_run its infos Hkeys).
  set (kept := List.filter (fun it => negb (existsb (reports (fst it)) infos)) its).
  exists infos, (map (fun it => bare (fst it) (snd it)) kept).
  assert (Hbare : forall b, b ∈ map (fun it => bare (fst it) (snd it)) kept ->
            info_model_name b = None
            /\ existsb (reports (info_name b)) infos = false
            /\ exists k, model_classes (self s) !! info_name b = Some k
                         /\ b = bare (info_name b) k).
  { intros b Hb. apply list_elem_of_In, in_map_iff in Hb as ([p k] & <- & Hin).
    apply List.filter_In in Hin as [Hin Hrep]. simpl in *.
    split; [reflexivity|]. split; [now apply negb_true_iff in Hrep|].
    exists k. split; [|reflexivity].
    apply list_elem_of_In in Hin. now apply items_lookup in Hin as [_ Hk]. }
  split; [reflexivity|]. split; [exact Hall|]. split; [|split; [exact Hbare|split]].
  - rewrite map_map. simpl. now apply filter_keys_NoDup.
  - intros p k Hp Hk.
    destruct (existsb (reports p) infos) eqn:Hrep; [now left|right].
    apply list_elem_of_In, in_map_iff. exists (p, k). split; [reflexivity|].
    apply List.filter_In. simpl. rewrite Hrep. split; [|reflexivity].
    apply list_elem_of_In, items_lookup. auto.
  - intros name model g Hname Hmodel Hg b Hb Hgem.
    destruct (Hbare b Hb) as (_ & Hrep & _). rewrite Hgem in Hrep.
    assert (Hin : (name, model) ∈ items (models (self s)) names)
      by (apply items_lookup; auto).
    apply list_elem_of_lookup in Hin as [n Hn].
    destruct (Forall2_lookup_l _ _ _ _ _ Hall Hn) as (i & Hi & Hdesc).
    destruct Hdesc as (_ & _ & _ & _ & Hdet). specialize (Hdet g Hg).
    assert (Hreports : reports "gemini" i = true).
    { unfold reports. rewrite Hdet. unfold Gemini.get_model_details.
      now rewrite lookup_insert_eq. }
    assert (Hex : existsb (reports "gemini") infos = true).
    { apply existsb_exists. exists i. split; [|exact Hreports].
      apply list_elem_of_In. eapply list_elem_of_lookup_2. exact Hi. }
    congruence.
Qed.

Lemma filter_all {A} (l : list A) : List.filter (fun _ => true) l = l.
Proof. induction l as [|a l IH]; simpl; now rewrite ?IH. Qed.

(** X17. On a router without registered instances [list_available_models]
    never raises: it returns one bare entry per registered class, in
    iteration order, each with the provider key as name and as provider
    detail and the name of the class as type. *)
Theorem list_available_models_without_instances :
  forall names providers (s : state),
    NoDup providers ->
    models (self s) = ∅ ->
    list_available_models names providers s
    = (Return (map (fun it => bare (fst it) (snd it))
                 (items (model_classes (self s)) providers)), s).
Proof.
  intros names providers s Hnd Hempty.
  assert (Hitems : items (models (self s)) names = []).
  { rewrite Hempty. unfold items. induction names as [|k names IH]; [reflexivity|].
    simpl. now rewrite lookup_empty. }
  unfold list_available_models. unfold bind, get, ret. rewrite Hitems. simpl.
  rewrite describe_providers_run by now apply items_keys.
  simpl. now rewrite filter_all.
Qed.

End Facts.

#[local] Existing Instance Scripted.service.
#[local] Existing Instance Fixtures.ascii_text.
#[local] Existing Instance Fixtures.plain.

(** The router with an OpenAI instance registered as "chat1": the instance
    and the bare Gemini entry are listed, OpenAI is not listed again. *)
Lemma listing_witness :
  list_available_models ["chat1"] ["openai"; "gemini"] Fixtures.with_chat1
  = (Return Fixtures.chat1_listing, Fixtures.with_chat1)
  /\ exists infos bares,
       Fixtures.chat1_listing = (infos ++ bares)%list
       /\ NoDup (map info_name bares).
Proof.
  assert (Hnd : NoDup ["openai"; "gemini"]).
  { apply NoDup_cons. split; [|apply NoDup_singleton].
    intros Hin. apply list_elem_of_singleton in Hin. discriminate. }
  split; [reflexivity|].
  destruct (list_available_models_lists_each_provider_once
              (introspection := Fixtures.plain)
              ["chat1"] ["openai"; "gemini"] Fixtures.with_chat1
              Fixtures.chat1_listing Fixtures.with_chat1 Hnd eq_refl)
    as (_ & _ & infos & bares & Hout & _ & Hbares & _).
  exists infos, bares. auto.
Defined.

(** A new router lists its two classes. *)
Lemma empty_listing_witness :
  list_available_models [] ["openai"; "gemini"] Fixtures.fresh
  = (Return [bare "openai" Fixtures.OpenAI_ok; bare "gemini" GeminiModel], Fixtures.fresh).
Proof.
  assert (Hnd : NoDup ["openai"; "gemini"]).
  { apply NoDup_cons. split; [|apply NoDup_singleton].
    intros Hin. apply list_elem_of_singleton in Hin. discriminate. }
  exact (list_available_models_without_instances
           (introspection := Fixtures.plain)
           [] ["openai"; "gemini"] Fixtures.fresh Hnd eq_refl).
Defined.

End ListingFacts.
